(** * Luma3DS / Rosalina: the GDB stub's hardware watchpoint manager

    A shallow embedding of [sysmodules/rosalina/source/gdb/watchpoints.c]
    and the properties of its four entry points
    [GDB_ResetWatchpoints], [GDB_AddWatchpoint], [GDB_RemoveWatchpoint]
    and [GDB_GetWatchpointKind].

    Conventions of the embedding:
    - a [u32] is a [Z] in [0, 2^32); every C operation that can leave that
      range is followed by [u32], its reduction modulo 2^32;
    - the global [manager], the global lock and the function-local static
      [lockInitialized] form the [World]; the [GDBContext] a call receives
      by pointer is passed in and returned;
    - the supervisor call [svcSetHardwareBreakPoint] appends to a trace of
      calls; its result code is an arbitrary function of the calls made so
      far and of the call itself, fixed for a whole section;
    - behaviour the C standard leaves undefined (a store past the end of an
      array, a shift by 32 or more) is the outcome [Undefined]. *)

From Stdlib Require Import ZArith List Bool Lia.
Import ListNotations.

Local Open Scope Z_scope.

(** ** Machine integers *)

Definition u32 (x : Z) : Z := x mod 2 ^ 32.

Definition is_u32 (x : Z) : Prop := 0 <= x < 2 ^ 32.

(** ** Constants of headers that are not part of this file *)

(** Modelled from the spec: the error codes of [<errno.h>] (newlib), which
    the entry points return negated; the spec only says that they are small
    integers, distinct for InvalidArgument and ResourceExhausted. *)
Definition EBUSY : Z := 16.
Definition EINVAL : Z := 22.

(** Modelled from the spec: [WatchpointKind] of [gdb/watchpoints.h], the
    enumeration whose zero value is the sentinel of a free slot (the slot
    table is cleared with [memset]) and whose other values are the trigger
    kinds. *)
Inductive WatchpointKind : Type :=
| WATCHPOINT_DISABLED
| WATCHPOINT_READ
| WATCHPOINT_WRITE
| WATCHPOINT_READ_WRITE.

(** The integer value of an enumerator, as the cast [(u32)kind] reads it. *)
Definition kind_value (k : WatchpointKind) : Z :=
  match k with
  | WATCHPOINT_DISABLED => 0
  | WATCHPOINT_READ => 1
  | WATCHPOINT_WRITE => 2
  | WATCHPOINT_READ_WRITE => 3
  end.

Definition kind_eqb (a b : WatchpointKind) : bool :=
  kind_value a =? kind_value b.

(** Modelled from the spec: [R_SUCCEEDED] of libctru, true of the result
    codes that are not negative. *)
Definition R_SUCCEEDED (r : Z) : bool := 0 <=? r.

(** ** Data *)

(** A C array of two elements. Reads and writes at an index other than 0
    address the second element; every use below is at an index known to be
    0 or 1, or is guarded by a bounds test. *)
Record array2 (A : Type) : Type := mkArray2 { elt0 : A; elt1 : A }.
Arguments mkArray2 {A} _ _.
Arguments elt0 {A} _.
Arguments elt1 {A} _.

Definition aget {A : Type} (a : array2 A) (i : Z) : A :=
  if i =? 0 then elt0 a else elt1 a.

Definition aset {A : Type} (a : array2 A) (i : Z) (v : A) : array2 A :=
  if i =? 0 then mkArray2 v (elt1 a) else mkArray2 (elt0 a) v.

(** [struct Watchpoint]. *)
Record Watchpoint : Type := mkWatchpoint {
  wp_address : Z;
  wp_size : Z;
  wp_kind : WatchpointKind;
  wp_debug : Z   (* Handle debug: the context ID *)
}.

(** [struct WatchpointManager]. *)
Record WatchpointManager : Type := mkManager {
  total : Z;
  watchpoints : array2 Watchpoint
}.

(** The part of [GDBContext] (declared in [gdb.h]) this file touches:
    the debug handle, the two cached addresses and their count. *)
Record GDBContext : Type := mkContext {
  debug : Z;
  ctx_watchpoints : array2 Z;
  nbWatchpoints : Z
}.

(** One call of [svcSetHardwareBreakPoint(index, control, value)]. *)
Record HwCall : Type := mkHwCall {
  hw_index : Z;
  hw_control : Z;
  hw_value : Z
}.

(** The globals of the file, and the calls made to the kernel so far
    (oldest first). The lock is its acquisition count. *)
Record World : Type := mkWorld {
  manager : WatchpointManager;
  watchpointManagerLock : Z;
  lockInitialized : bool;
  hw_calls : list HwCall
}.

(** What [memset(.., 0, ..)] leaves. *)
Definition zero_watchpoint : Watchpoint :=
  mkWatchpoint 0 0 WATCHPOINT_DISABLED 0.

Definition zero_manager : WatchpointManager :=
  mkManager 0 (mkArray2 zero_watchpoint zero_watchpoint).

Definition set_manager (w : World) (m : WatchpointManager) : World :=
  mkWorld m (watchpointManagerLock w) (lockInitialized w) (hw_calls w).

Definition set_lock (w : World) (n : Z) : World :=
  mkWorld (manager w) n (lockInitialized w) (hw_calls w).

Definition set_lockInitialized (w : World) (b : bool) : World :=
  mkWorld (manager w) (watchpointManagerLock w) b (hw_calls w).

(** ** The recursive lock *)

(** Modelled from the spec: the recursive mutex of libctru, seen from the
    one thread that runs the calls: an acquisition count, raised by a lock,
    lowered by an unlock, the lock being free at zero. *)
Definition RecursiveLock_Init (w : World) : World := set_lock w 0.
Definition RecursiveLock_Lock (w : World) : World :=
  set_lock w (watchpointManagerLock w + 1).
Definition RecursiveLock_Unlock (w : World) : World :=
  set_lock w (watchpointManagerLock w - 1).

(** ** Outcomes *)

Inductive UB : Type :=
| OutOfBoundsStore (index : Z)   (* ctx->watchpoints[index], index >= 2 *)
| ShiftTooWide (count : Z).      (* 1 << count, count >= 32 *)

Inductive Outcome : Type :=
| Ret (r : Z) (w : World) (ctx : GDBContext)
| Undefined (u : UB).

Section Hardware.

(** The result code of a call, given the calls that preceded it. *)
Variable svc_result : list HwCall -> HwCall -> Z.

Definition svcSetHardwareBreakPoint (w : World) (index control value : Z)
  : Z * World :=
  let c := mkHwCall index control value in
  (svc_result (hw_calls w) c,
   mkWorld (manager w) (watchpointManagerLock w) (lockInitialized w)
           (hw_calls w ++ [c])).

(** ** GDB_ResetWatchpoints *)

Definition GDB_ResetWatchpoints (w : World) : World :=
  let w := if lockInitialized w then w
           else set_lockInitialized (RecursiveLock_Init w) true in
  let w := RecursiveLock_Lock w in
  let w := snd (svcSetHardwareBreakPoint w 4 0 0) in
  let w := snd (svcSetHardwareBreakPoint w 0x100 0 0) in
  let w := snd (svcSetHardwareBreakPoint w 5 0 0) in
  let w := snd (svcSetHardwareBreakPoint w 0x101 0 0) in
  let w := set_manager w zero_manager in
  RecursiveLock_Unlock w.

(** ** The slot scan shared by lookup and removal *)

(** [for(id = 0; id < 2 && watchpoints[id].address != address
         && watchpoints[id].debug != ctx->debug; id++);]
    run for at most [fuel] tests of the condition; three tests end it. *)
Fixpoint scan_from (fuel : nat) (m : WatchpointManager) (ctx : GDBContext)
  (address id : Z) : Z :=
  match fuel with
  | O => id
  | S fuel' =>
      if (id <? 2)
         && negb (wp_address (aget (watchpoints m) id) =? address)
         && negb (wp_debug (aget (watchpoints m) id) =? debug ctx)
      then scan_from fuel' m ctx address (u32 (id + 1))
      else id
  end.

Definition scan (m : WatchpointManager) (ctx : GDBContext) (address : Z) : Z :=
  scan_from 3 m ctx address 0.

(** ** GDB_GetWatchpointKind *)

Definition GDB_GetWatchpointKind (w : World) (ctx : GDBContext) (address : Z)
  : WatchpointKind * World * GDBContext :=
  let id := scan (manager w) ctx address in
  (if id =? 2 then WATCHPOINT_DISABLED
   else wp_kind (aget (watchpoints (manager w)) id),
   w, ctx).

(** ** GDB_AddWatchpoint *)

Definition BCR : Z :=
  Z.lor (Z.lor (Z.lor (Z.lor
    (Z.shiftl 1 21)        (* compare with context ID *)
    (Z.shiftl 1 20))       (* linked (with a WRP in our case) *)
    (Z.shiftl 0xf 5))      (* byte address select, +0 to +3 *)
    (Z.shiftl 3 1))        (* either privileged modes or user mode *)
    (Z.shiftl 1 0).        (* enabled *)

Definition WCR (id selectMask : Z) (kind : WatchpointKind) : Z :=
  u32 (Z.lor (Z.lor (Z.lor (Z.lor (Z.lor
    (Z.shiftl 1 20)                    (* linked *)
    (Z.shiftl (4 + id) 16))            (* ID of the linked BRP *)
    (Z.shiftl selectMask 5))           (* byte address select *)
    (Z.shiftl (kind_value kind) 3))    (* kind *)
    (Z.shiftl 2 1))                    (* user mode only *)
    (Z.shiftl 1 0)).                   (* enabled *)

(** [address & ~3] *)
Definition aligned (address : Z) : Z := Z.land address 0xFFFFFFFC.

(** [address - (address & ~3)] *)
Definition offset_of (address : Z) : Z := u32 (address - aligned address).

(** [manager.watchpoints[0].kind == WATCHPOINT_DISABLED ? 0 : 1] *)
Definition alloc_id (m : WatchpointManager) : Z :=
  if kind_eqb (wp_kind (aget (watchpoints m) 0)) WATCHPOINT_DISABLED
  then 0 else 1.

(** [((1 << size) - 1) << offset], for a size below 32 *)
Definition select_mask (size offset : Z) : Z :=
  u32 (Z.shiftl (u32 (Z.shiftl 1 size - 1)) offset).

Definition GDB_AddWatchpoint (w : World) (ctx : GDBContext)
  (address size : Z) (kind : WatchpointKind) : Outcome :=
  let w := RecursiveLock_Lock w in
  let offset := offset_of address in
  if total (manager w) =? 2 then
    Ret (- EBUSY) w ctx
  else if (size =? 0) || (4 <? u32 (offset + size))
          || kind_eqb kind WATCHPOINT_DISABLED then
    Ret (- EINVAL) w ctx
  else
    let '(found, w, ctx) := GDB_GetWatchpointKind w ctx address in
    if negb (kind_eqb found WATCHPOINT_DISABLED) then
      Ret (- EINVAL) w ctx
    else
      let id := alloc_id (manager w) in
      if 32 <=? size then Undefined (ShiftTooWide size)
      else
        let selectMask := select_mask size offset in
        let '(r, w) :=
          svcSetHardwareBreakPoint w (Z.lor 0x100 id) (WCR id selectMask kind)
                                   (aligned address) in
        let '(r, w) :=
          if R_SUCCEEDED r
          then svcSetHardwareBreakPoint w (4 + id) BCR (debug ctx)
          else (r, w) in
        if R_SUCCEEDED r then
          let m := manager w in
          let m := mkManager (u32 (total m + 1)) (watchpoints m) in
          let m := mkManager (total m)
                     (aset (watchpoints m) id
                        (mkWatchpoint address size kind (debug ctx))) in
          let w := set_manager w m in
          let n := nbWatchpoints ctx in
          if (0 <=? n) && (n <? 2) then
            let ctx := mkContext (debug ctx)
                         (aset (ctx_watchpoints ctx) n address)
                         (u32 (n + 1)) in
            Ret 0 (RecursiveLock_Unlock w) ctx
          else Undefined (OutOfBoundsStore n)
        else
          Ret (- EINVAL) (RecursiveLock_Unlock w) ctx.

(** ** GDB_RemoveWatchpoint *)

(** The update of the session's cache at the end of a removal:
    [if(ctx->watchpoints[0] == address) { ... }
     else if(ctx->watchpoints[1] == address) { ... }] *)
Definition forget_address (ctx : GDBContext) (address : Z) : GDBContext :=
  if aget (ctx_watchpoints ctx) 0 =? address then
    mkContext (debug ctx)
      (aset (aset (ctx_watchpoints ctx) 0 (aget (ctx_watchpoints ctx) 1)) 1 0)
      (u32 (nbWatchpoints ctx - 1))
  else if aget (ctx_watchpoints ctx) 1 =? address then
    mkContext (debug ctx) (aset (ctx_watchpoints ctx) 1 0)
      (u32 (nbWatchpoints ctx - 1))
  else ctx.

Definition GDB_RemoveWatchpoint (w : World) (ctx : GDBContext)
  (address : Z) (kind : WatchpointKind) : Z * World * GDBContext :=
  let w := RecursiveLock_Lock w in
  let id := scan (manager w) ctx address in
  if (id =? 2)
     || (negb (kind_eqb kind WATCHPOINT_DISABLED)
         && negb (kind_eqb (wp_kind (aget (watchpoints (manager w)) id)) kind))
  then
    (- EINVAL, RecursiveLock_Unlock w, ctx)
  else
    let w := snd (svcSetHardwareBreakPoint w (4 + id) 0 0) in
    let w := snd (svcSetHardwareBreakPoint w (Z.lor 0x100 id) 0 0) in
    let m := manager w in
    let m := mkManager (total m) (aset (watchpoints m) id zero_watchpoint) in
    let m := mkManager (u32 (total m - 1)) (watchpoints m) in
    let w := set_manager w m in
    let ctx := forget_address ctx address in
    (0, RecursiveLock_Unlock w, ctx).

End Hardware.

(** ** Sequences of calls

    The stub's callers, seen from this file: each call names the session
    it passes. A run stops ([None]) at undefined behaviour, or at a call
    that names a session that does not exist. *)

Inductive Call : Type :=
| CallReset
| CallAdd (session : nat) (address size : Z) (kind : WatchpointKind)
| CallRemove (session : nat) (address : Z) (kind : WatchpointKind).

Record System : Type := mkSystem {
  world : World;
  sessions : list GDBContext
}.

Fixpoint set_session (l : list GDBContext) (s : nat) (c : GDBContext)
  : list GDBContext :=
  match l, s with
  | [], _ => []
  | _ :: l', O => c :: l'
  | x :: l', S s' => x :: set_session l' s' c
  end.

(** The state of the statics when the module starts, and a session that
    has not watched anything yet. *)
Definition power_on : World := mkWorld zero_manager 0 false [].

Definition new_context (handle : Z) : GDBContext :=
  mkContext handle (mkArray2 0 0) 0.

Section Runs.

Variable svc_result : list HwCall -> HwCall -> Z.

Definition step (sys : System) (c : Call) : option System :=
  match c with
  | CallReset =>
      Some (mkSystem (GDB_ResetWatchpoints svc_result (world sys))
                     (sessions sys))
  | CallAdd s address size kind =>
      match nth_error (sessions sys) s with
      | None => None
      | Some ctx =>
          match GDB_AddWatchpoint svc_result (world sys) ctx
                                  address size kind with
          | Ret _ w ctx' => Some (mkSystem w (set_session (sessions sys) s ctx'))
          | Undefined _ => None
          end
      end
  | CallRemove s address kind =>
      match nth_error (sessions sys) s with
      | None => None
      | Some ctx =>
          let '(_, w, ctx') :=
            GDB_RemoveWatchpoint svc_result (world sys) ctx address kind in
          Some (mkSystem w (set_session (sessions sys) s ctx'))
      end
  end.

Fixpoint run (calls : list Call) (sys : System) : option System :=
  match calls with
  | [] => Some sys
  | c :: calls' =>
      match step sys c with
      | None => None
      | Some sys' => run calls' sys'
      end
  end.

(** The Reset state: the module has started, [GDB_ResetWatchpoints] has
    run, and the sessions are new. *)
Definition boot (handles : list Z) : System :=
  mkSystem (GDB_ResetWatchpoints svc_result power_on)
           (map new_context handles).

End Runs.

(** Two kernels to run examples on: one that accepts every call, and one
    that refuses to enable a breakpoint register pair. *)
Definition hw_ok : list HwCall -> HwCall -> Z := fun _ _ => 0.

Definition hw_brp_refused : list HwCall -> HwCall -> Z :=
  fun _ c =>
    if (hw_index c <? 0x100) && negb (hw_control c =? 0) then -1 else 0.

(** The Reset state with one session, and that session. *)
Definition example_world : World := world (boot hw_ok [0x8001]).

Definition example_session : GDBContext := new_context 0x8001.

(** ** Derived notions used in the statements *)

(** The number of slots whose kind is not [WATCHPOINT_DISABLED]. *)
Definition occupied (s : Watchpoint) : bool :=
  negb (kind_eqb (wp_kind s) WATCHPOINT_DISABLED).

Definition nb_occupied (m : WatchpointManager) : Z :=
  (if occupied (elt0 (watchpoints m)) then 1 else 0)
  + (if occupied (elt1 (watchpoints m)) then 1 else 0).

(** The two kernel calls of a successful [GDB_AddWatchpoint], in the order
    it makes them: the watchpoint register pair, then the breakpoint
    register pair it is linked with. *)
Definition wrp_call (m : WatchpointManager) (address size : Z)
  (kind : WatchpointKind) : HwCall :=
  mkHwCall (Z.lor 0x100 (alloc_id m))
           (WCR (alloc_id m) (select_mask size (offset_of address)) kind)
           (aligned address).

Definition brp_call (m : WatchpointManager) (ctx : GDBContext) : HwCall :=
  mkHwCall (4 + alloc_id m) BCR (debug ctx).

Definition add_calls (w : World) (calls : list HwCall) : World :=
  mkWorld (manager w) (watchpointManagerLock w) (lockInitialized w)
          (hw_calls w ++ calls).

(** [total] counts the occupied slots. *)
Definition consistent (m : WatchpointManager) : Prop :=
  total m = nb_occupied m.

(** The manager once [GDB_AddWatchpoint] has committed a request. *)
Definition committed (w : World) (ctx : GDBContext) (address size : Z)
  (kind : WatchpointKind) : WatchpointManager :=
  mkManager (u32 (total (manager w) + 1))
            (aset (watchpoints (manager w)) (alloc_id (manager w))
                  (mkWatchpoint address size kind (debug ctx))).

(** The manager once [GDB_RemoveWatchpoint] has released slot [id]. *)
Definition released (w : World) (id : Z) : WatchpointManager :=
  mkManager (u32 (total (manager w) - 1))
            (aset (watchpoints (manager w)) id zero_watchpoint).

(** A session whose cache holds nothing past its count. *)
Definition cache_compact (ctx : GDBContext) : Prop :=
  (nbWatchpoints ctx = 0 -> elt0 (ctx_watchpoints ctx) = 0)
  /\ (nbWatchpoints ctx <= 1 -> elt1 (ctx_watchpoints ctx) = 0).

(** The lookup rule in the words of the specification: a slot matches a
    session and an address when its stored address is the address or its
    stored owner is the session's handle; the lookup answers with the kind
    of the lowest matching slot, and with Disabled when there is none. *)
Definition spec_matches (ctx : GDBContext) (address : Z) (s : Watchpoint)
  : bool :=
  (wp_address s =? address) || (wp_debug s =? debug ctx).

Definition spec_GetKind (m : WatchpointManager) (ctx : GDBContext)
  (address : Z) : WatchpointKind :=
  if spec_matches ctx address (elt0 (watchpoints m))
  then wp_kind (elt0 (watchpoints m))
  else if spec_matches ctx address (elt1 (watchpoints m))
  then wp_kind (elt1 (watchpoints m))
  else WATCHPOINT_DISABLED.

(** ** Notions used in the further properties *)

(** A slot is cleared or occupied: a free slot holds what [memset] left. *)
Definition slot_clear (s : Watchpoint) : Prop :=
  occupied s = true \/ s = zero_watchpoint.

(** A slot is cleared, or holds a request that passed validation. *)
Definition slot_valid (s : Watchpoint) : Prop :=
  s = zero_watchpoint
  \/ (wp_kind s <> WATCHPOINT_DISABLED
      /\ 1 <= wp_size s <= 4
      /\ wp_address s mod 4 + wp_size s <= 4).

(** The four calls of [GDB_ResetWatchpoints], in the order it makes them. *)
Definition reset_calls : list HwCall :=
  [mkHwCall 4 0 0; mkHwCall 0x100 0 0; mkHwCall 5 0 0; mkHwCall 0x101 0 0].

(** A kernel call this file may make: on one of the two context-ID
    breakpoint register pairs, the disabled encoding or [BCR]; on one of
    the two watchpoint register pairs, the disabled encoding or an enabled
    control word with a word-aligned compare value. *)
Definition reserved_call (c : HwCall) : Prop :=
  ((hw_index c = 4 \/ hw_index c = 5)
   /\ ((hw_control c = 0 /\ hw_value c = 0) \/ hw_control c = BCR))
  \/ ((hw_index c = 0x100 \/ hw_index c = 0x101)
      /\ ((hw_control c = 0 /\ hw_value c = 0)
          \/ (Z.odd (hw_control c) = true /\ hw_value c mod 4 = 0))).

(** The arguments of a call are values of type [u32]. *)
Definition call_u32 (c : Call) : Prop :=
  match c with
  | CallReset => True
  | CallAdd _ address size _ => is_u32 address /\ is_u32 size
  | CallRemove _ address _ => is_u32 address
  end.

(** A removal that does not ask for address 0. *)
Definition call_nonzero (c : Call) : Prop :=
  match c with
  | CallRemove _ address _ => address <> 0
  | _ => True
  end.

(** The number of calls of [GDB_AddWatchpoint] in a sequence. *)
Fixpoint nb_adds (calls : list Call) : Z :=
  match calls with
  | [] => 0
  | CallAdd _ _ _ _ :: calls' => 1 + nb_adds calls'
  | _ :: calls' => nb_adds calls'
  end.

(** What the run keeps when no session has handle 0 and no removal asks for
    address 0. *)
Definition counted (sys : System) : Prop :=
  consistent (manager (world sys))
  /\ slot_clear (elt0 (watchpoints (manager (world sys))))
  /\ slot_clear (elt1 (watchpoints (manager (world sys))))
  /\ Forall (fun c => debug c <> 0) (sessions sys).

(** * Properties *)

(** Closes a conjunction of closed facts about an example run from left to
    right, so that each state is computed before it is used. *)
Ltac run_fact := vm_compute; first [reflexivity | discriminate].
Ltac run_example := repeat (split; [run_fact |]); run_fact.

(** ** Arithmetic of the encoding *)

Lemma u32_small (x : Z) : is_u32 x -> u32 x = x.
Proof. unfold is_u32, u32. intros H. apply Z.mod_small. exact H. Qed.

Lemma aligned_div (a : Z) : is_u32 a -> aligned a = a - a mod 4.
Proof.
  unfold is_u32, aligned. intros H.
  change 0xFFFFFFFC with (Z.land (Z.ones 32) (Z.lnot (Z.ones 2))).
  rewrite Z.land_assoc, Z.land_ones by lia.
  rewrite Z.mod_small by exact H.
  rewrite <- Z.ldiff_land, Z.ldiff_ones_r by lia.
  rewrite Z.shiftr_div_pow2, Z.shiftl_mul_pow2 by lia.
  change (2 ^ 2) with 4.
  pose proof (Z.div_mod a 4). lia.
Qed.

Lemma offset_mod4 (a : Z) : is_u32 a -> offset_of a = a mod 4.
Proof.
  intros H. unfold offset_of. rewrite aligned_div by exact H.
  replace (a - (a - a mod 4)) with (a mod 4) by lia.
  apply u32_small. unfold is_u32.
  pose proof (Z.mod_pos_bound a 4). lia.
Qed.

Lemma kind_eqb_eq (a b : WatchpointKind) : kind_eqb a b = true <-> a = b.
Proof.
  unfold kind_eqb. rewrite Z.eqb_eq.
  split; [| intros ->; reflexivity].
  destruct a, b; simpl; intros H; try reflexivity; discriminate H.
Qed.

Lemma kind_eqb_refl (a : WatchpointKind) : kind_eqb a a = true.
Proof. apply kind_eqb_eq. reflexivity. Qed.

(** ** The scan *)

Lemma scan_cases (m : WatchpointManager) (ctx : GDBContext) (address : Z) :
  scan m ctx address =
  if spec_matches ctx address (elt0 (watchpoints m)) then 0
  else if spec_matches ctx address (elt1 (watchpoints m)) then 1
  else 2.
Proof.
  unfold scan, spec_matches. cbn [scan_from].
  change (0 <? 2) with true. change (aget (watchpoints m) 0)
    with (elt0 (watchpoints m)).
  change (u32 (0 + 1)) with 1. change (1 <? 2) with true.
  change (aget (watchpoints m) 1) with (elt1 (watchpoints m)).
  change (u32 (1 + 1)) with 2. change (2 <? 2) with false.
  destruct (wp_address (elt0 (watchpoints m)) =? address),
           (wp_debug (elt0 (watchpoints m)) =? debug ctx),
           (wp_address (elt1 (watchpoints m)) =? address),
           (wp_debug (elt1 (watchpoints m)) =? debug ctx);
    reflexivity.
Qed.

(** The lookup of the source is the lookup of the specification, and gives
    back the state it was given. *)
Lemma GetWatchpointKind_eq (w : World) (ctx : GDBContext) (address : Z) :
  GDB_GetWatchpointKind w ctx address
  = (spec_GetKind (manager w) ctx address, w, ctx).
Proof.
  unfold GDB_GetWatchpointKind, spec_GetKind.
  rewrite scan_cases.
  destruct (spec_matches ctx address (elt0 (watchpoints (manager w))));
    [reflexivity |].
  destruct (spec_matches ctx address (elt1 (watchpoints (manager w))));
    reflexivity.
Qed.

Lemma spec_matches_iff (ctx : GDBContext) (address : Z) (s : Watchpoint) :
  spec_matches ctx address s = true
  <-> wp_address s = address \/ wp_debug s = debug ctx.
Proof.
  unfold spec_matches. rewrite orb_true_iff, !Z.eqb_eq. reflexivity.
Qed.

(** C7. [GDB_GetWatchpointKind] answers with the kind stored in the
    lowest-indexed slot whose stored address is the requested address or
    whose stored owner is the session's handle, and with
    [WATCHPOINT_DISABLED] when neither slot matches; the globals, the trace
    of kernel calls and the session come back as they went in. *)
Theorem GetWatchpointKind_lookup (w : World) (ctx : GDBContext) (address : Z) :
  exists k,
    GDB_GetWatchpointKind w ctx address = (k, w, ctx)
    /\ (wp_address (elt0 (watchpoints (manager w))) = address
        \/ wp_debug (elt0 (watchpoints (manager w))) = debug ctx ->
        k = wp_kind (elt0 (watchpoints (manager w))))
    /\ (~ (wp_address (elt0 (watchpoints (manager w))) = address
           \/ wp_debug (elt0 (watchpoints (manager w))) = debug ctx) ->
        wp_address (elt1 (watchpoints (manager w))) = address
        \/ wp_debug (elt1 (watchpoints (manager w))) = debug ctx ->
        k = wp_kind (elt1 (watchpoints (manager w))))
    /\ (~ (wp_address (elt0 (watchpoints (manager w))) = address
           \/ wp_debug (elt0 (watchpoints (manager w))) = debug ctx) ->
        ~ (wp_address (elt1 (watchpoints (manager w))) = address
           \/ wp_debug (elt1 (watchpoints (manager w))) = debug ctx) ->
        k = WATCHPOINT_DISABLED).
Proof.
  exists (spec_GetKind (manager w) ctx address).
  split; [apply GetWatchpointKind_eq |].
  unfold spec_GetKind. rewrite <- !spec_matches_iff.
  destruct (spec_matches ctx address (elt0 (watchpoints (manager w))));
    destruct (spec_matches ctx address (elt1 (watchpoints (manager w))));
    repeat split; intros; try reflexivity; try congruence;
    exfalso; auto.
Qed.

Lemma spec_matches_false (ctx : GDBContext) (address : Z) (s : Watchpoint) :
  wp_address s <> address -> wp_debug s <> debug ctx ->
  spec_matches ctx address s = false.
Proof.
  intros Ha Hd. unfold spec_matches.
  apply Z.eqb_neq in Ha. apply Z.eqb_neq in Hd.
  rewrite Ha, Hd. reflexivity.
Qed.

(** ** The lock *)

Lemma unlock_lock (w : World) :
  RecursiveLock_Unlock (RecursiveLock_Lock w) = w.
Proof.
  destruct w as [m n b l].
  unfold RecursiveLock_Unlock, RecursiveLock_Lock, set_lock. cbn.
  f_equal. lia.
Qed.

Lemma Remove_lock_balanced svc (w : World) (ctx : GDBContext) (address : Z)
  (kind : WatchpointKind) :
  watchpointManagerLock
    (snd (fst (GDB_RemoveWatchpoint svc w ctx address kind)))
  = watchpointManagerLock w.
Proof.
  unfold GDB_RemoveWatchpoint.
  match goal with |- context [if ?c then _ else _] => destruct c end;
    cbn; lia.
Qed.

Lemma Reset_lock_balanced svc (w : World) :
  lockInitialized w = true ->
  watchpointManagerLock (GDB_ResetWatchpoints svc w) = watchpointManagerLock w.
Proof.
  intros H. unfold GDB_ResetWatchpoints. rewrite H. cbn. lia.
Qed.

(** ** Removal *)

(** X22. When neither slot, free or occupied, stores the address and
    neither slot stores the session's handle as its owner,
    [GDB_RemoveWatchpoint] with [WATCHPOINT_DISABLED] returns [-EINVAL] and
    leaves the slot table, [total], the trace of kernel calls, the lock and
    the session as they were. *)
Theorem Remove_no_match svc (w : World) (ctx : GDBContext) (address : Z) :
  wp_address (elt0 (watchpoints (manager w))) <> address ->
  wp_debug (elt0 (watchpoints (manager w))) <> debug ctx ->
  wp_address (elt1 (watchpoints (manager w))) <> address ->
  wp_debug (elt1 (watchpoints (manager w))) <> debug ctx ->
  GDB_RemoveWatchpoint svc w ctx address WATCHPOINT_DISABLED
  = (- EINVAL, w, ctx).
Proof.
  intros Ha0 Hd0 Ha1 Hd1.
  unfold GDB_RemoveWatchpoint.
  replace (manager (RecursiveLock_Lock w)) with (manager w) by reflexivity.
  rewrite scan_cases.
  rewrite (spec_matches_false _ _ _ Ha0 Hd0).
  rewrite (spec_matches_false _ _ _ Ha1 Hd1).
  change (2 =? 2) with true. cbn [orb].
  rewrite unlock_lock. reflexivity.
Qed.

Lemma Remove_no_match_witness :
  GDB_RemoveWatchpoint hw_ok (world (boot hw_ok [0x8001]))
                       (new_context 0x8001) 0x2000 WATCHPOINT_DISABLED
  = (- EINVAL, world (boot hw_ok [0x8001]), new_context 0x8001).
Proof.
  apply (Remove_no_match hw_ok (world (boot hw_ok [0x8001]))
                         (new_context 0x8001) 0x2000);
    cbn; lia.
Defined.

(** C2. After one successful add at 0x1000 by a session, no occupied slot
    stores 0x2000, yet that session's removal of 0x2000 with
    [WATCHPOINT_DISABLED] returns 0: the scan stops at slot 0 by its owner,
    the slot that watched 0x1000 is freed, [total] is lowered and two
    kernel calls are made, while the cache update, which looks for 0x2000,
    leaves the session listing 0x1000 with a count of 1 and no slot. From
    there the same session's add of 0x3000, removal of 0x2000 and add of
    0x4000 reach a store at index 2 of its two-entry cache. And in the
    Reset state, where no slot is occupied, the removal of address 0
    returns 0 as well: it matches a cleared slot. *)
Theorem Remove_unknown_address_frees_slot :
  exists sys w' ctx',
    run hw_ok [CallAdd 0 0x1000 4 WATCHPOINT_WRITE] (boot hw_ok [0x8001])
    = Some sys
    /\ sessions sys = [mkContext 0x8001 (mkArray2 0x1000 0) 1]
    /\ wp_address (elt0 (watchpoints (manager (world sys)))) = 0x1000
    /\ occupied (elt1 (watchpoints (manager (world sys)))) = false
    /\ total (manager (world sys)) = 1
    /\ scan (manager (world sys))
            (mkContext 0x8001 (mkArray2 0x1000 0) 1) 0x2000 = 0
    /\ GDB_RemoveWatchpoint hw_ok (world sys)
         (mkContext 0x8001 (mkArray2 0x1000 0) 1) 0x2000 WATCHPOINT_DISABLED
       = (0, w', ctx')
    /\ 0 <> - EINVAL
    /\ total (manager w') = 0
    /\ watchpoints (manager w') = mkArray2 zero_watchpoint zero_watchpoint
    /\ hw_calls w'
       = hw_calls (world sys) ++ [mkHwCall 4 0 0; mkHwCall 0x100 0 0]
    /\ ctx' = mkContext 0x8001 (mkArray2 0x1000 0) 1
    /\ (exists sys2 ctx2,
          run hw_ok [CallAdd 0 0x1000 4 WATCHPOINT_WRITE;
                     CallRemove 0 0x2000 WATCHPOINT_DISABLED;
                     CallAdd 0 0x3000 4 WATCHPOINT_WRITE;
                     CallRemove 0 0x2000 WATCHPOINT_DISABLED]
              (boot hw_ok [0x8001])
          = Some sys2
          /\ nth_error (sessions sys2) 0 = Some ctx2
          /\ ctx2 = mkContext 0x8001 (mkArray2 0x1000 0x3000) 2
          /\ nb_occupied (manager (world sys2)) = 0
          /\ GDB_AddWatchpoint hw_ok (world sys2) ctx2 0x4000 4
                               WATCHPOINT_WRITE
             = Undefined (OutOfBoundsStore 2))
    /\ nb_occupied (manager example_world) = 0
    /\ fst (fst (GDB_RemoveWatchpoint hw_ok example_world example_session 0
                                      WATCHPOINT_DISABLED)) = 0.
Proof.
  do 3 eexists. do 12 (split; [run_fact |]).
  split; [do 2 eexists; run_example |].
  run_example.
Qed.

(** ** Addition: the paths through [GDB_AddWatchpoint] *)

Lemma kind_eqb_neq (a b : WatchpointKind) : a <> b -> kind_eqb a b = false.
Proof.
  intros H. destruct (kind_eqb a b) eqn:E; [| reflexivity].
  apply kind_eqb_eq in E. contradiction.
Qed.

Lemma Add_full svc (w : World) (ctx : GDBContext) (address size : Z)
  (kind : WatchpointKind) :
  total (manager w) = 2 ->
  GDB_AddWatchpoint svc w ctx address size kind
  = Ret (- EBUSY) (RecursiveLock_Lock w) ctx.
Proof.
  intros H. unfold GDB_AddWatchpoint.
  replace (manager (RecursiveLock_Lock w)) with (manager w) by reflexivity.
  rewrite H. reflexivity.
Qed.

Lemma Add_invalid svc (w : World) (ctx : GDBContext) (address size : Z)
  (kind : WatchpointKind) :
  total (manager w) <> 2 ->
  size = 0 \/ 4 < u32 (offset_of address + size)
  \/ kind = WATCHPOINT_DISABLED ->
  GDB_AddWatchpoint svc w ctx address size kind
  = Ret (- EINVAL) (RecursiveLock_Lock w) ctx.
Proof.
  intros Ht H. unfold GDB_AddWatchpoint.
  replace (manager (RecursiveLock_Lock w)) with (manager w) by reflexivity.
  apply Z.eqb_neq in Ht. rewrite Ht.
  assert (E : (size =? 0) || (4 <? u32 (offset_of address + size))
              || kind_eqb kind WATCHPOINT_DISABLED = true).
  { destruct H as [H | [H | H]].
    - apply Z.eqb_eq in H. rewrite H. reflexivity.
    - apply Z.ltb_lt in H. rewrite H. apply orb_true_iff. left.
      apply orb_true_r.
    - subst kind. apply orb_true_r. }
  rewrite E. reflexivity.
Qed.

Lemma Add_duplicate svc (w : World) (ctx : GDBContext) (address size : Z)
  (kind : WatchpointKind) :
  total (manager w) <> 2 ->
  size <> 0 -> u32 (offset_of address + size) <= 4 ->
  kind <> WATCHPOINT_DISABLED ->
  spec_GetKind (manager w) ctx address <> WATCHPOINT_DISABLED ->
  GDB_AddWatchpoint svc w ctx address size kind
  = Ret (- EINVAL) (RecursiveLock_Lock w) ctx.
Proof.
  intros Ht Hs Hfit Hk Hdup.
  unfold GDB_AddWatchpoint.
  rewrite GetWatchpointKind_eq.
  replace (manager (RecursiveLock_Lock w)) with (manager w) by reflexivity.
  apply Z.eqb_neq in Ht. rewrite Ht.
  apply Z.eqb_neq in Hs. rewrite Hs.
  apply Z.ltb_ge in Hfit. rewrite Hfit.
  rewrite (kind_eqb_neq _ _ Hk), (kind_eqb_neq _ _ Hdup).
  reflexivity.
Qed.

Lemma Add_programs svc (w : World) (ctx : GDBContext) (address size : Z)
  (kind : WatchpointKind) :
  total (manager w) <> 2 ->
  size <> 0 -> u32 (offset_of address + size) <= 4 -> size < 32 ->
  kind <> WATCHPOINT_DISABLED ->
  spec_GetKind (manager w) ctx address = WATCHPOINT_DISABLED ->
  GDB_AddWatchpoint svc w ctx address size kind
  = let c1 := wrp_call (manager w) address size kind in
    let c2 := brp_call (manager w) ctx in
    if R_SUCCEEDED (svc (hw_calls w) c1) then
      if R_SUCCEEDED (svc (hw_calls w ++ [c1]) c2) then
        if (0 <=? nbWatchpoints ctx) && (nbWatchpoints ctx <? 2) then
          Ret 0 (set_manager (add_calls w [c1; c2])
                             (committed w ctx address size kind))
              (mkContext (debug ctx)
                 (aset (ctx_watchpoints ctx) (nbWatchpoints ctx) address)
                 (u32 (nbWatchpoints ctx + 1)))
        else Undefined (OutOfBoundsStore (nbWatchpoints ctx))
      else Ret (- EINVAL) (add_calls w [c1; c2]) ctx
    else Ret (- EINVAL) (add_calls w [c1]) ctx.
Proof.
  intros Ht Hs Hfit H32 Hk Hdup.
  unfold GDB_AddWatchpoint.
  rewrite GetWatchpointKind_eq.
  replace (manager (RecursiveLock_Lock w)) with (manager w) by reflexivity.
  rewrite Hdup.
  apply Z.eqb_neq in Ht. rewrite Ht.
  apply Z.eqb_neq in Hs. rewrite Hs.
  apply Z.ltb_ge in Hfit. rewrite Hfit.
  rewrite (kind_eqb_neq _ _ Hk).
  cbn [orb negb kind_eqb kind_value Z.eqb].
  apply Z.leb_gt in H32. rewrite H32.
  unfold svcSetHardwareBreakPoint, wrp_call, brp_call.
  destruct w as [m n b l].
  cbn [manager hw_calls RecursiveLock_Lock set_lock watchpointManagerLock
       lockInitialized].
  destruct (R_SUCCEEDED (svc l _)) eqn:E1;
    [destruct (R_SUCCEEDED (svc (l ++ _) _)) eqn:E2;
     [destruct ((0 <=? nbWatchpoints ctx) && (nbWatchpoints ctx <? 2)) |] |];
    try reflexivity;
    unfold RecursiveLock_Unlock, set_manager, set_lock, add_calls, committed;
    cbn [manager hw_calls watchpointManagerLock lockInitialized total
         watchpoints];
    rewrite <- ?app_assoc; cbn [app];
    rewrite ?E1; replace (n + 1 - 1) with n by lia; reflexivity.
Qed.

(** What a successful return tells about the request and the state. *)
Lemma Add_success_inv svc (w : World) (ctx : GDBContext) (address size : Z)
  (kind : WatchpointKind) (w' : World) (ctx' : GDBContext) :
  GDB_AddWatchpoint svc w ctx address size kind = Ret 0 w' ctx' ->
  total (manager w) <> 2
  /\ size <> 0 /\ u32 (offset_of address + size) <= 4 /\ size < 32
  /\ kind <> WATCHPOINT_DISABLED
  /\ spec_GetKind (manager w) ctx address = WATCHPOINT_DISABLED.
Proof.
  unfold GDB_AddWatchpoint.
  rewrite GetWatchpointKind_eq.
  replace (manager (RecursiveLock_Lock w)) with (manager w) by reflexivity.
  destruct (total (manager w) =? 2) eqn:Et; [discriminate |].
  destruct (size =? 0) eqn:Es; [discriminate |].
  destruct (4 <? u32 (offset_of address + size)) eqn:Ef; [discriminate |].
  destruct (kind_eqb kind WATCHPOINT_DISABLED) eqn:Ek; [discriminate |].
  cbn [orb].
  destruct (kind_eqb (spec_GetKind (manager w) ctx address)
                     WATCHPOINT_DISABLED) eqn:Ed; [| discriminate].
  cbn [negb].
  destruct (32 <=? size) eqn:E32; [discriminate |].
  intros _.
  apply Z.eqb_neq in Et. apply Z.eqb_neq in Es. apply Z.ltb_ge in Ef.
  apply Z.leb_gt in E32. apply kind_eqb_eq in Ed.
  repeat split; try assumption.
  intros ->. discriminate Ek.
Qed.

Lemma alloc_id_cases (m : WatchpointManager) : alloc_id m = 0 \/ alloc_id m = 1.
Proof.
  unfold alloc_id.
  destruct (kind_eqb (wp_kind (aget (watchpoints m) 0)) WATCHPOINT_DISABLED);
    [left | right]; reflexivity.
Qed.

(** A request that passed validation has a size from 1 to 4 that fits the
    aligned word. *)
Lemma validated_size (address size : Z) :
  is_u32 address -> is_u32 size ->
  size <> 0 -> u32 (offset_of address + size) <= 4 -> size < 32 ->
  1 <= size <= 4 /\ address mod 4 + size <= 4.
Proof.
  intros Ha Hs Hn Hfit H32.
  rewrite (offset_mod4 _ Ha) in Hfit.
  pose proof (Z.mod_pos_bound address 4 eq_refl) as Hoff.
  unfold is_u32 in Hs.
  rewrite u32_small in Hfit; [lia |].
  unfold is_u32. change (2 ^ 32) with 4294967296. lia.
Qed.

(** The control word of the watchpoint register pair, field by field. *)
Lemma WCR_fields (id size offset : Z) (kind : WatchpointKind) :
  id = 0 \/ id = 1 -> 1 <= size -> 0 <= offset -> offset + size <= 4 ->
  WCR id (select_mask size offset) kind
  = 2 ^ 20 + (4 + id) * 2 ^ 16 + ((2 ^ size - 1) * 2 ^ offset) * 2 ^ 5
    + kind_value kind * 2 ^ 3 + 2 * 2 ^ 1 + 1
  /\ 0 < (2 ^ size - 1) * 2 ^ offset <= 0xF.
Proof.
  intros Hid Hs Ho Hfit.
  assert (Hsz : size = 1 \/ size = 2 \/ size = 3 \/ size = 4) by lia.
  assert (Hoff : offset = 0 \/ offset = 1 \/ offset = 2 \/ offset = 3) by lia.
  destruct Hid as [-> | ->];
    destruct Hsz as [-> | [-> | [-> | ->]]];
    destruct Hoff as [-> | [-> | [-> | ->]]];
    try lia; destruct kind; vm_compute; repeat split; congruence.
Qed.

Lemma BCR_fields : BCR = 2 ^ 21 + 2 ^ 20 + 0xF * 2 ^ 5 + 3 * 2 ^ 1 + 1.
Proof. reflexivity. Qed.

Lemma wrp_index (id : Z) : id = 0 \/ id = 1 -> Z.lor 0x100 id = 0x100 + id.
Proof. intros [-> | ->]; reflexivity. Qed.

(** C9. A successful [GDB_AddWatchpoint] makes exactly two kernel calls, in
    this order. The first programs watchpoint register pair [0x100 | id],
    [id] being the slot it allocates, with the aligned base address as the
    compare value and a control word made of the linked flag (bit 20), the
    index [4 + id] of the linked breakpoint pair (from bit 16), the
    byte-select mask [((1 << size) - 1) << offset] (from bit 5, four bits
    wide), the kind (from bit 3), user mode only (2, from bit 1) and the
    enabled flag (bit 0). The second programs breakpoint register pair
    [4 + id] with the session's handle as the compare value and a control
    word made of the context-ID flag (bit 21), the linked flag (bit 20),
    byte-select 0xF, both privileged and user modes (3) and the enabled
    flag. The request had a size from 1 to 4 inside one aligned word. *)
Theorem Add_success_programs svc (w : World) (ctx : GDBContext)
  (address size : Z) (kind : WatchpointKind) (w' : World) (ctx' : GDBContext) :
  is_u32 address -> is_u32 size ->
  GDB_AddWatchpoint svc w ctx address size kind = Ret 0 w' ctx' ->
  1 <= size <= 4 /\ address mod 4 + size <= 4
  /\ 0 < (2 ^ size - 1) * 2 ^ (address mod 4) <= 0xF
  /\ hw_calls w'
     = hw_calls w
       ++ [mkHwCall (0x100 + alloc_id (manager w))
                    (2 ^ 20 + (4 + alloc_id (manager w)) * 2 ^ 16
                     + ((2 ^ size - 1) * 2 ^ (address mod 4)) * 2 ^ 5
                     + kind_value kind * 2 ^ 3 + 2 * 2 ^ 1 + 1)
                    (address - address mod 4);
           mkHwCall (4 + alloc_id (manager w))
                    (2 ^ 21 + 2 ^ 20 + 0xF * 2 ^ 5 + 3 * 2 ^ 1 + 1)
                    (debug ctx)]
  /\ aget (watchpoints (manager w')) (alloc_id (manager w))
     = mkWatchpoint address size kind (debug ctx).
Proof.
  intros Ha Hs H.
  destruct (Add_success_inv _ _ _ _ _ _ _ _ H)
    as (Ht & Hn & Hfit & H32 & Hk & Hdup).
  destruct (validated_size _ _ Ha Hs Hn Hfit H32) as [Hsz Hin].
  pose proof (Z.mod_pos_bound address 4 eq_refl) as Hoff.
  destruct (WCR_fields (alloc_id (manager w)) size (address mod 4) kind
              (alloc_id_cases _)) as [Hw Hmask]; try lia.
  rewrite (Add_programs _ _ _ _ _ _ Ht Hn Hfit H32 Hk Hdup) in H.
  cbv zeta in H.
  destruct (R_SUCCEEDED _) in H; [| discriminate H].
  destruct (R_SUCCEEDED _) in H; [| discriminate H].
  destruct (_ && _) in H; [| discriminate H].
  injection H as <- <-.
  split; [exact Hsz |]. split; [exact Hin |]. split; [exact Hmask |].
  split.
  - cbn [set_manager add_calls hw_calls]. unfold wrp_call, brp_call.
    rewrite (offset_mod4 _ Ha), (aligned_div _ Ha), Hw.
    rewrite (wrp_index _ (alloc_id_cases _)). reflexivity.
  - cbn [set_manager manager committed watchpoints].
    destruct (alloc_id_cases (manager w)) as [-> | ->]; reflexivity.
Qed.

Lemma Add_success_programs_witness :
  1 <= 2 <= 4 /\ 0x1002 mod 4 + 2 <= 4
  /\ 0 < (2 ^ 2 - 1) * 2 ^ (0x1002 mod 4) <= 0xF
  /\ hw_calls (set_manager
                 (add_calls example_world
                    [wrp_call (manager example_world) 0x1002 2 WATCHPOINT_WRITE;
                     brp_call (manager example_world) example_session])
                 (committed example_world example_session 0x1002 2
                            WATCHPOINT_WRITE))
     = hw_calls example_world
       ++ [mkHwCall (0x100 + alloc_id (manager example_world))
                    (2 ^ 20 + (4 + alloc_id (manager example_world)) * 2 ^ 16
                     + ((2 ^ 2 - 1) * 2 ^ (0x1002 mod 4)) * 2 ^ 5
                     + kind_value WATCHPOINT_WRITE * 2 ^ 3 + 2 * 2 ^ 1 + 1)
                    (0x1002 - 0x1002 mod 4);
           mkHwCall (4 + alloc_id (manager example_world))
                    (2 ^ 21 + 2 ^ 20 + 0xF * 2 ^ 5 + 3 * 2 ^ 1 + 1)
                    (debug example_session)]
  /\ aget (watchpoints
             (manager
                (set_manager
                   (add_calls example_world
                      [wrp_call (manager example_world) 0x1002 2
                                WATCHPOINT_WRITE;
                       brp_call (manager example_world) example_session])
                   (committed example_world example_session 0x1002 2
                              WATCHPOINT_WRITE))))
          (alloc_id (manager example_world))
     = mkWatchpoint 0x1002 2 WATCHPOINT_WRITE (debug example_session).
Proof.
  apply (Add_success_programs hw_ok example_world example_session 0x1002 2
           WATCHPOINT_WRITE _
           (mkContext 0x8001 (mkArray2 0x1002 0) 1)).
  - unfold is_u32. vm_compute. split; [discriminate | reflexivity].
  - unfold is_u32. vm_compute. split; [discriminate | reflexivity].
  - vm_compute. reflexivity.
Defined.

(** ** Addition: the order of the checks *)

(** C8, as amended. [GDB_AddWatchpoint] tests capacity before it looks at
    its arguments. Whenever [total] is 2 it returns [-EBUSY], whatever the
    address, the size and the kind (a size of 0 and a kind of
    [WATCHPOINT_DISABLED] included). When [total] is not 2, a size of 0, a
    region that does not fit the aligned word or a kind of
    [WATCHPOINT_DISABLED] gives [-EINVAL]; and when the arguments are
    valid, a lookup that does not answer [WATCHPOINT_DISABLED] gives
    [-EINVAL]. Each of these returns changes nothing but the lock, which
    it leaves acquired. *)
Theorem Add_check_order svc (w : World) (ctx : GDBContext)
  (address size : Z) (kind : WatchpointKind) :
  (total (manager w) = 2 ->
   GDB_AddWatchpoint svc w ctx address size kind
   = Ret (- EBUSY) (RecursiveLock_Lock w) ctx)
  /\ (total (manager w) <> 2 ->
      size = 0 \/ 4 < u32 (offset_of address + size)
      \/ kind = WATCHPOINT_DISABLED ->
      GDB_AddWatchpoint svc w ctx address size kind
      = Ret (- EINVAL) (RecursiveLock_Lock w) ctx)
  /\ (total (manager w) <> 2 ->
      size <> 0 -> u32 (offset_of address + size) <= 4 ->
      kind <> WATCHPOINT_DISABLED ->
      (exists k, fst (fst (GDB_GetWatchpointKind w ctx address)) = k
                 /\ k <> WATCHPOINT_DISABLED) ->
      GDB_AddWatchpoint svc w ctx address size kind
      = Ret (- EINVAL) (RecursiveLock_Lock w) ctx).
Proof.
  split; [apply Add_full |]. split; [apply Add_invalid |].
  intros Ht Hs Hf Hk (k & Hg & Hd).
  rewrite GetWatchpointKind_eq in Hg. cbn in Hg. subst k.
  apply Add_duplicate; assumption.
Qed.

Lemma Add_check_order_witness :
  GDB_AddWatchpoint hw_ok
    (set_manager example_world
       (mkManager 2
          (mkArray2 (mkWatchpoint 0x1000 4 WATCHPOINT_READ_WRITE 0x8001)
                    (mkWatchpoint 0x2000 4 WATCHPOINT_WRITE 0x8002))))
    (new_context 0x8003) 0x3000 0 WATCHPOINT_DISABLED
  = Ret (- EBUSY)
        (RecursiveLock_Lock
           (set_manager example_world
              (mkManager 2
                 (mkArray2
                    (mkWatchpoint 0x1000 4 WATCHPOINT_READ_WRITE 0x8001)
                    (mkWatchpoint 0x2000 4 WATCHPOINT_WRITE 0x8002)))))
        (new_context 0x8003)
  /\ GDB_AddWatchpoint hw_ok example_world example_session
                       0x2003 2 WATCHPOINT_WRITE
     = Ret (- EINVAL) (RecursiveLock_Lock example_world) example_session
  /\ GDB_AddWatchpoint hw_ok
       (set_manager example_world
          (mkManager 1
             (mkArray2 (mkWatchpoint 0x1000 4 WATCHPOINT_READ_WRITE 0x8001)
                       zero_watchpoint)))
       (new_context 0x8002) 0x1000 1 WATCHPOINT_WRITE
     = Ret (- EINVAL)
           (RecursiveLock_Lock
              (set_manager example_world
                 (mkManager 1
                    (mkArray2
                       (mkWatchpoint 0x1000 4 WATCHPOINT_READ_WRITE 0x8001)
                       zero_watchpoint))))
           (new_context 0x8002).
Proof.
  split; [| split].
  - apply (proj1 (Add_check_order hw_ok _ _ _ _ _)). reflexivity.
  - apply (proj1 (proj2 (Add_check_order hw_ok _ _ _ _ _))).
    + vm_compute. discriminate.
    + right. left. vm_compute. reflexivity.
  - apply (proj2 (proj2 (Add_check_order hw_ok _ _ _ _ _))).
    + vm_compute. discriminate.
    + discriminate.
    + vm_compute. discriminate.
    + discriminate.
    + exists WATCHPOINT_READ_WRITE. split; [reflexivity | discriminate].
Defined.

(** C8, refuted as stated. Two sessions hold the two slots; a third add
    whose size is 0 returns [-EBUSY], not [-EINVAL], and so does one whose
    kind is [WATCHPOINT_DISABLED]. *)
Lemma Add_order_counterexample :
  exists sys,
    run hw_ok [CallAdd 0 0x1000 4 WATCHPOINT_READ_WRITE;
               CallAdd 1 0x2000 4 WATCHPOINT_WRITE]
        (boot hw_ok [0x8001; 0x8002; 0x8003])
    = Some sys
    /\ nb_occupied (manager (world sys)) = 2
    /\ nth_error (sessions sys) 2 = Some (new_context 0x8003)
    /\ GDB_AddWatchpoint hw_ok (world sys) (new_context 0x8003)
         0x3000 0 WATCHPOINT_WRITE
       = Ret (- EBUSY) (RecursiveLock_Lock (world sys)) (new_context 0x8003)
    /\ GDB_AddWatchpoint hw_ok (world sys) (new_context 0x8003)
         0x3000 4 WATCHPOINT_DISABLED
       = Ret (- EBUSY) (RecursiveLock_Lock (world sys)) (new_context 0x8003)
    /\ - EBUSY <> - EINVAL.
Proof.
  eexists. run_example.
Qed.

(** ** Addition: a kernel refusal half way *)

(** C3, as amended. When the call that programs the watchpoint register
    pair succeeds and the call that programs the breakpoint register pair
    fails, [GDB_AddWatchpoint] returns [-EINVAL] having made those two
    calls and no other: the watchpoint register pair is left as it was
    programmed, enabled. The manager records nothing: the slot table,
    [total], the lock and the session are as they were. *)
Theorem Add_brp_failure svc (w : World) (ctx : GDBContext)
  (address size : Z) (kind : WatchpointKind) :
  is_u32 address -> is_u32 size ->
  total (manager w) <> 2 ->
  size <> 0 -> address mod 4 + size <= 4 ->
  kind <> WATCHPOINT_DISABLED ->
  spec_GetKind (manager w) ctx address = WATCHPOINT_DISABLED ->
  0 <= svc (hw_calls w) (wrp_call (manager w) address size kind) ->
  svc (hw_calls w ++ [wrp_call (manager w) address size kind])
      (brp_call (manager w) ctx) < 0 ->
  GDB_AddWatchpoint svc w ctx address size kind
  = Ret (- EINVAL)
        (add_calls w [wrp_call (manager w) address size kind;
                      brp_call (manager w) ctx])
        ctx
  /\ Z.odd (hw_control (wrp_call (manager w) address size kind)) = true.
Proof.
  intros Ha Hs Ht Hn Hfit Hk Hdup H1 H2.
  pose proof (Z.mod_pos_bound address 4 eq_refl) as Hoff.
  assert (Hs' : 1 <= size) by (unfold is_u32 in Hs; lia).
  destruct (WCR_fields (alloc_id (manager w)) size (address mod 4) kind
              (alloc_id_cases _)) as [Hw _]; try lia.
  split.
  - rewrite Add_programs; try assumption; try lia.
    + cbv zeta. unfold R_SUCCEEDED.
      apply Z.leb_le in H1. rewrite H1.
      apply Z.leb_gt in H2. rewrite H2. reflexivity.
    + rewrite (offset_mod4 _ Ha). rewrite u32_small; [lia |].
      unfold is_u32. change (2 ^ 32) with 4294967296. lia.
  - unfold wrp_call. cbn [hw_control].
    rewrite (offset_mod4 _ Ha), Hw.
    replace (2 ^ 20 + (4 + alloc_id (manager w)) * 2 ^ 16
             + (2 ^ size - 1) * 2 ^ (address mod 4) * 2 ^ 5
             + kind_value kind * 2 ^ 3 + 2 * 2 ^ 1 + 1)
      with (1 + 2 * (2 ^ 19 + (4 + alloc_id (manager w)) * 2 ^ 15
                     + (2 ^ size - 1) * 2 ^ (address mod 4) * 2 ^ 4
                     + kind_value kind * 2 ^ 2 + 2))
      by (change (2 ^ 20) with (2 * 2 ^ 19);
          change (2 ^ 16) with (2 * 2 ^ 15);
          change (2 ^ 5) with (2 * 2 ^ 4);
          change (2 ^ 3) with (2 * 2 ^ 2);
          change (2 ^ 1) with 2; ring).
    rewrite Z.odd_add_mul_2. reflexivity.
Qed.

Lemma Add_brp_failure_witness :
  GDB_AddWatchpoint hw_brp_refused example_world example_session
                    0x1000 4 WATCHPOINT_WRITE
  = Ret (- EINVAL)
        (add_calls example_world
           [wrp_call (manager example_world) 0x1000 4 WATCHPOINT_WRITE;
            brp_call (manager example_world) example_session])
        example_session
  /\ Z.odd (hw_control
              (wrp_call (manager example_world) 0x1000 4 WATCHPOINT_WRITE))
     = true.
Proof.
  apply (Add_brp_failure hw_brp_refused example_world example_session
           0x1000 4 WATCHPOINT_WRITE).
  - unfold is_u32. vm_compute. split; [discriminate | reflexivity].
  - unfold is_u32. vm_compute. split; [discriminate | reflexivity].
  - vm_compute. discriminate.
  - lia.
  - vm_compute. discriminate.
  - discriminate.
  - vm_compute. reflexivity.
  - vm_compute. discriminate.
  - vm_compute. reflexivity.
Defined.

(** C3, refuted as stated. On a kernel that refuses to enable a breakpoint
    register pair, an add from the Reset state programs watchpoint register
    pair 0x100 (the call succeeds), is refused breakpoint register pair 4,
    and returns [-EINVAL]: those two calls are all it made, and the last
    call on pair 0x100 is the one that enabled it, not the disabled
    encoding (0, 0). *)
Lemma Add_rollback_counterexample :
  exists w',
    GDB_AddWatchpoint hw_brp_refused example_world example_session
                      0x1000 4 WATCHPOINT_WRITE
    = Ret (- EINVAL) w' example_session
    /\ hw_calls w'
       = hw_calls example_world
         ++ [mkHwCall 0x100 0x1401F5 0x1000; mkHwCall 4 0x3001E7 0x8001]
    /\ hw_brp_refused (hw_calls example_world)
                      (mkHwCall 0x100 0x1401F5 0x1000) = 0
    /\ hw_brp_refused
         (hw_calls example_world ++ [mkHwCall 0x100 0x1401F5 0x1000])
         (mkHwCall 4 0x3001E7 0x8001) = -1
    /\ last (filter (fun c => hw_index c =? 0x100) (hw_calls w'))
            (mkHwCall 0 0 0)
       = mkHwCall 0x100 0x1401F5 0x1000
    /\ mkHwCall 0x100 0x1401F5 0x1000 <> mkHwCall 0x100 0 0
    /\ manager w' = manager example_world.
Proof.
  eexists. run_example.
Qed.

(** ** Removal after addition *)

Lemma Remove_programs svc (w : World) (ctx : GDBContext) (address : Z)
  (kind : WatchpointKind) (id : Z) :
  scan (manager w) ctx address = id -> id = 0 \/ id = 1 ->
  kind = WATCHPOINT_DISABLED
  \/ wp_kind (aget (watchpoints (manager w)) id) = kind ->
  GDB_RemoveWatchpoint svc w ctx address kind
  = (0,
     set_manager
       (add_calls w [mkHwCall (4 + id) 0 0; mkHwCall (Z.lor 0x100 id) 0 0])
       (released w id),
     forget_address ctx address).
Proof.
  intros Hscan Hid Hk. unfold GDB_RemoveWatchpoint.
  replace (manager (RecursiveLock_Lock w)) with (manager w) by reflexivity.
  rewrite Hscan.
  assert (E : (id =? 2)
              || negb (kind_eqb kind WATCHPOINT_DISABLED)
                 && negb (kind_eqb
                            (wp_kind (aget (watchpoints (manager w)) id))
                            kind) = false).
  { replace (id =? 2) with false by (destruct Hid as [-> | ->]; reflexivity).
    destruct Hk as [-> | ->].
    - reflexivity.
    - rewrite kind_eqb_refl. cbn. apply andb_false_r. }
  rewrite E. destruct w as [m n b l].
  unfold svcSetHardwareBreakPoint, RecursiveLock_Unlock, RecursiveLock_Lock,
    set_manager, set_lock, add_calls, released.
  cbn [manager hw_calls watchpointManagerLock lockInitialized total
       watchpoints snd].
  rewrite <- app_assoc. cbn [app].
  replace (n + 1 - 1) with n by lia. reflexivity.
Qed.

Lemma u32_succ_pred (t : Z) : is_u32 t -> u32 (u32 (t + 1) - 1) = t.
Proof.
  intros H. unfold u32. rewrite Zminus_mod_idemp_l.
  replace (t + 1 - 1) with t by lia. apply Z.mod_small. exact H.
Qed.

Lemma scan_committed (w : World) (ctx ctx1 : GDBContext) (address size : Z)
  (kind : WatchpointKind) :
  debug ctx1 = debug ctx ->
  spec_GetKind (manager w) ctx address = WATCHPOINT_DISABLED ->
  scan (committed w ctx address size kind) ctx1 address = alloc_id (manager w).
Proof.
  intros Hd Hdup. rewrite scan_cases.
  unfold committed, alloc_id, spec_GetKind in *.
  cbn [watchpoints].
  change (aget (watchpoints (manager w)) 0)
    with (elt0 (watchpoints (manager w))).
  assert (Hnew : forall s d, spec_matches ctx1 address
                   (mkWatchpoint address s kind d) = true).
  { intros s d. unfold spec_matches. cbn [wp_address].
    rewrite Z.eqb_refl. reflexivity. }
  destruct (kind_eqb (wp_kind (elt0 (watchpoints (manager w))))
                     WATCHPOINT_DISABLED) eqn:Ek.
  - cbn [aset Z.eqb elt0 elt1]. rewrite Hnew. reflexivity.
  - cbn [aset Z.eqb elt0 elt1]. rewrite Hnew.
    replace (spec_matches ctx1 address (elt0 (watchpoints (manager w))))
      with (spec_matches ctx address (elt0 (watchpoints (manager w))))
      by (unfold spec_matches; rewrite Hd; reflexivity).
    destruct (spec_matches ctx address (elt0 (watchpoints (manager w)))).
    + rewrite Hdup in Ek. discriminate Ek.
    + reflexivity.
Qed.

Lemma forget_appended (ctx : GDBContext) (address : Z) :
  cache_compact ctx -> 0 <= nbWatchpoints ctx < 2 ->
  forget_address
    (mkContext (debug ctx)
       (aset (ctx_watchpoints ctx) (nbWatchpoints ctx) address)
       (u32 (nbWatchpoints ctx + 1)))
    address
  = ctx.
Proof.
  destruct ctx as [d [c0 c1] n]. unfold cache_compact. cbn.
  intros [H0 H1] Hn.
  assert (Hc : n = 0 \/ n = 1) by lia.
  destruct Hc as [-> | ->].
  - rewrite H0, H1 by lia. unfold forget_address. cbn.
    rewrite Z.eqb_refl. reflexivity.
  - rewrite H1 by lia. unfold forget_address. cbn.
    destruct (c0 =? address) eqn:E.
    + apply Z.eqb_eq in E. subst c0. reflexivity.
    + rewrite Z.eqb_refl. reflexivity.
Qed.

(** C10, as amended. For a session whose cache holds nothing past its count
    (both entries zero when the count is 0, the second zero when it is 1),
    if [GDB_AddWatchpoint] of one byte with [WATCHPOINT_WRITE] succeeds,
    the [GDB_RemoveWatchpoint] of the same address and kind that follows
    returns 0 and undoes it: [total] is what it was, the slot the add took
    is zeroed, the other slot and the lock are untouched, the session's
    cache and count are what they were before the add; and the manager as
    a whole is what it was when the slot was zeroed before the add. *)
Theorem Add_then_Remove svc (w : World) (ctx : GDBContext) (address : Z)
  (w1 : World) (ctx1 : GDBContext) :
  is_u32 (total (manager w)) -> cache_compact ctx ->
  GDB_AddWatchpoint svc w ctx address 1 WATCHPOINT_WRITE = Ret 0 w1 ctx1 ->
  exists w2,
    GDB_RemoveWatchpoint svc w1 ctx1 address WATCHPOINT_WRITE = (0, w2, ctx)
    /\ total (manager w2) = total (manager w)
    /\ aget (watchpoints (manager w2)) (alloc_id (manager w)) = zero_watchpoint
    /\ aget (watchpoints (manager w2)) (1 - alloc_id (manager w))
       = aget (watchpoints (manager w)) (1 - alloc_id (manager w))
    /\ watchpointManagerLock w2 = watchpointManagerLock w
    /\ (aget (watchpoints (manager w)) (alloc_id (manager w)) = zero_watchpoint
        -> manager w2 = manager w).
Proof.
  intros Ht Hc H.
  destruct (Add_success_inv _ _ _ _ _ _ _ _ H)
    as (Hfull & Hn & Hfit & H32 & Hk & Hdup).
  rewrite (Add_programs _ _ _ _ _ _ Hfull Hn Hfit H32 Hk Hdup) in H.
  cbv zeta in H.
  destruct (R_SUCCEEDED _) in H; [| discriminate H].
  destruct (R_SUCCEEDED _) in H; [| discriminate H].
  destruct (_ && _) eqn:Hnb in H; [| discriminate H].
  injection H as <- <-.
  apply andb_true_iff in Hnb. destruct Hnb as [Hnb0 Hnb2].
  apply Z.leb_le in Hnb0. apply Z.ltb_lt in Hnb2.
  eexists. split.
  - rewrite (Remove_programs svc _ _ _ _ (alloc_id (manager w))).
    + rewrite forget_appended by (assumption || lia). reflexivity.
    + cbn [set_manager manager]. apply scan_committed; [reflexivity | exact Hdup].
    + apply alloc_id_cases.
    + right. cbn [set_manager manager committed watchpoints].
      destruct (alloc_id_cases (manager w)) as [-> | ->]; reflexivity.
  - unfold released, committed, set_manager, add_calls.
    cbn [manager total watchpoints watchpointManagerLock].
    rewrite (u32_succ_pred _ Ht).
    destruct w as [[t [s0 s1]] n b l].
    cbn [manager total watchpoints watchpointManagerLock].
    destruct (alloc_id_cases (mkManager t (mkArray2 s0 s1))) as [E | E];
      rewrite E; cbn [aget aset Z.eqb Z.sub Z.add Z.opp Z.pos_sub elt0 elt1];
      repeat split; try reflexivity; intros ->; reflexivity.
Qed.

Lemma Add_then_Remove_witness :
  exists w2,
    GDB_RemoveWatchpoint hw_ok
      (set_manager
         (add_calls example_world
            [wrp_call (manager example_world) 0x1000 1 WATCHPOINT_WRITE;
             brp_call (manager example_world) example_session])
         (committed example_world example_session 0x1000 1 WATCHPOINT_WRITE))
      (mkContext 0x8001 (mkArray2 0x1000 0) 1) 0x1000 WATCHPOINT_WRITE
    = (0, w2, example_session)
    /\ total (manager w2) = total (manager example_world)
    /\ aget (watchpoints (manager w2)) (alloc_id (manager example_world))
       = zero_watchpoint
    /\ aget (watchpoints (manager w2)) (1 - alloc_id (manager example_world))
       = aget (watchpoints (manager example_world))
              (1 - alloc_id (manager example_world))
    /\ watchpointManagerLock w2 = watchpointManagerLock example_world
    /\ (aget (watchpoints (manager example_world))
             (alloc_id (manager example_world)) = zero_watchpoint
        -> manager w2 = manager example_world).
Proof.
  apply (Add_then_Remove hw_ok example_world example_session 0x1000).
  - unfold is_u32. vm_compute. split; [discriminate | reflexivity].
  - unfold cache_compact. split; intros _; reflexivity.
  - vm_compute. reflexivity.
Defined.

(** C10, refuted as stated. A session adds 0x1000 and then removes address
    0 with the same kind: the removal matches its slot by owner, frees it,
    and lowers the session's count to 0 while the cache still lists 0x1000.
    From that state, adding 0x2000 (one byte, write) and removing it at
    once both succeed, and leave the session's cache empty: not what it was
    before the pair of calls. *)
Lemma Add_then_Remove_counterexample :
  exists sys w1 ctx1 w2 ctx2,
    run hw_ok [CallAdd 0 0x1000 1 WATCHPOINT_WRITE;
               CallRemove 0 0 WATCHPOINT_WRITE]
        (boot hw_ok [0x8001])
    = Some sys
    /\ sessions sys = [mkContext 0x8001 (mkArray2 0x1000 0) 0]
    /\ GDB_AddWatchpoint hw_ok (world sys)
         (mkContext 0x8001 (mkArray2 0x1000 0) 0) 0x2000 1 WATCHPOINT_WRITE
       = Ret 0 w1 ctx1
    /\ GDB_RemoveWatchpoint hw_ok w1 ctx1 0x2000 WATCHPOINT_WRITE
       = (0, w2, ctx2)
    /\ ctx2 = mkContext 0x8001 (mkArray2 0 0) 0
    /\ ctx2 <> mkContext 0x8001 (mkArray2 0x1000 0) 0.
Proof.
  do 5 eexists. run_example.
Qed.

(** ** What the calls return, and the count of occupied slots

    [GDB_ResetWatchpoints] and [GDB_AddWatchpoint] keep [total] equal to
    the number of occupied slots; [GDB_RemoveWatchpoint] does when the slot
    its scan selects is occupied. *)

Lemma Add_wide_shift svc (w : World) (ctx : GDBContext) (address size : Z)
  (kind : WatchpointKind) :
  total (manager w) <> 2 ->
  size <> 0 -> u32 (offset_of address + size) <= 4 -> 32 <= size ->
  kind <> WATCHPOINT_DISABLED ->
  spec_GetKind (manager w) ctx address = WATCHPOINT_DISABLED ->
  GDB_AddWatchpoint svc w ctx address size kind
  = Undefined (ShiftTooWide size).
Proof.
  intros Ht Hs Hfit H32 Hk Hdup.
  unfold GDB_AddWatchpoint.
  rewrite GetWatchpointKind_eq.
  replace (manager (RecursiveLock_Lock w)) with (manager w) by reflexivity.
  rewrite Hdup.
  apply Z.eqb_neq in Ht. rewrite Ht.
  apply Z.eqb_neq in Hs. rewrite Hs.
  apply Z.ltb_ge in Hfit. rewrite Hfit.
  rewrite (kind_eqb_neq _ _ Hk).
  apply Z.leb_le in H32. rewrite H32.
  reflexivity.
Qed.

Lemma kind_eq_dec (a b : WatchpointKind) : {a = b} + {a <> b}.
Proof. decide equality. Qed.

(** Every way [GDB_AddWatchpoint] returns. *)
Lemma Add_return_cases svc (w : World) (ctx : GDBContext) (address size : Z)
  (kind : WatchpointKind) (r : Z) (w' : World) (ctx' : GDBContext) :
  GDB_AddWatchpoint svc w ctx address size kind = Ret r w' ctx' ->
  (r <> 0 /\ w' = RecursiveLock_Lock w /\ ctx' = ctx)
  \/ (r <> 0 /\ ctx' = ctx
      /\ exists calls, calls <> [] /\ w' = add_calls w calls)
  \/ (r = 0
      /\ total (manager w) <> 2
      /\ 0 <= nbWatchpoints ctx < 2
      /\ w' = set_manager
                (add_calls w [wrp_call (manager w) address size kind;
                              brp_call (manager w) ctx])
                (committed w ctx address size kind)
      /\ ctx' = mkContext (debug ctx)
                  (aset (ctx_watchpoints ctx) (nbWatchpoints ctx) address)
                  (u32 (nbWatchpoints ctx + 1))).
Proof.
  intros H.
  destruct (Z.eq_dec (total (manager w)) 2) as [Ht | Ht].
  { rewrite (Add_full _ _ _ _ _ _ Ht) in H. injection H as <- <- <-.
    left. repeat split. discriminate. }
  destruct (Z.eq_dec size 0) as [Hs | Hs].
  { rewrite Add_invalid in H by (assumption || (left; assumption)).
    injection H as <- <- <-. left. repeat split. discriminate. }
  destruct (Z_lt_dec 4 (u32 (offset_of address + size))) as [Hf | Hf].
  { rewrite Add_invalid in H by (assumption || (right; left; assumption)).
    injection H as <- <- <-. left. repeat split. discriminate. }
  destruct (kind_eq_dec kind WATCHPOINT_DISABLED) as [Hk | Hk].
  { rewrite Add_invalid in H by (assumption || (right; right; assumption)).
    injection H as <- <- <-. left. repeat split. discriminate. }
  destruct (kind_eq_dec (spec_GetKind (manager w) ctx address)
                        WATCHPOINT_DISABLED) as [Hd | Hd].
  2: { rewrite Add_duplicate in H by (assumption || lia).
       injection H as <- <- <-. left. repeat split. discriminate. }
  destruct (Z_lt_dec size 32) as [H32 | H32].
  2: { rewrite Add_wide_shift in H by (assumption || lia). discriminate H. }
  rewrite Add_programs in H by (assumption || lia).
  cbv zeta in H.
  destruct (R_SUCCEEDED _) in H.
  - destruct (R_SUCCEEDED _) in H.
    + destruct (_ && _) eqn:Hnb in H; [| discriminate H].
      injection H as <- <- <-.
      apply andb_true_iff in Hnb. destruct Hnb as [Hn0 Hn2].
      apply Z.leb_le in Hn0. apply Z.ltb_lt in Hn2.
      right. right. repeat split; assumption.
    + injection H as <- <- <-. right. left.
      split; [discriminate |]. split; [reflexivity |].
      eexists. split; [| reflexivity]. discriminate.
  - injection H as <- <- <-. right. left.
    split; [discriminate |]. split; [reflexivity |].
    eexists. split; [| reflexivity]. discriminate.
Qed.

Lemma nb_occupied_range (m : WatchpointManager) : 0 <= nb_occupied m <= 2.
Proof.
  unfold nb_occupied.
  destruct (occupied (elt0 (watchpoints m))),
           (occupied (elt1 (watchpoints m))); lia.
Qed.

Lemma Reset_consistent svc (w : World) :
  manager (GDB_ResetWatchpoints svc w) = zero_manager
  /\ consistent (manager (GDB_ResetWatchpoints svc w)).
Proof. split; reflexivity. Qed.

Lemma Add_consistent svc (w : World) (ctx : GDBContext) (address size : Z)
  (kind : WatchpointKind) (r : Z) (w' : World) (ctx' : GDBContext) :
  consistent (manager w) ->
  GDB_AddWatchpoint svc w ctx address size kind = Ret r w' ctx' ->
  consistent (manager w').
Proof.
  intros Hc H.
  pose proof (Add_success_inv svc w ctx address size kind) as Hinv.
  destruct (Add_return_cases _ _ _ _ _ _ _ _ _ H)
    as [(_ & -> & _) | [(_ & _ & calls & _ & ->) | (-> & Ht & _ & -> & _)]];
    try exact Hc.
  destruct (Hinv _ _ H) as (_ & _ & _ & _ & Hk & _).
  unfold consistent in *. unfold committed, set_manager, add_calls.
  cbn [manager total watchpoints].
  pose proof (nb_occupied_range (manager w)) as Hr.
  unfold alloc_id, nb_occupied, occupied in *.
  change (aget (watchpoints (manager w)) 0)
    with (elt0 (watchpoints (manager w))).
  apply kind_eqb_neq in Hk.
  destruct (kind_eqb (wp_kind (elt0 (watchpoints (manager w))))
                     WATCHPOINT_DISABLED) eqn:E0;
    destruct (kind_eqb (wp_kind (elt1 (watchpoints (manager w))))
                       WATCHPOINT_DISABLED) eqn:E1;
    cbn [aset Z.eqb elt0 elt1 wp_kind negb watchpoints total] in *;
    rewrite ?Hk, ?E0, ?E1; cbn [negb];
    (rewrite u32_small;
     [lia | unfold is_u32; change (2 ^ 32) with 4294967296; lia]).
Qed.

Lemma scan_range (m : WatchpointManager) (ctx : GDBContext) (address : Z) :
  scan m ctx address = 0 \/ scan m ctx address = 1 \/ scan m ctx address = 2.
Proof.
  rewrite scan_cases.
  destruct (spec_matches ctx address (elt0 (watchpoints m)));
    [left; reflexivity |].
  destruct (spec_matches ctx address (elt1 (watchpoints m)));
    right; [left | right]; reflexivity.
Qed.

Lemma Remove_refused svc (w : World) (ctx : GDBContext) (address : Z)
  (kind : WatchpointKind) :
  scan (manager w) ctx address = 2
  \/ (kind <> WATCHPOINT_DISABLED
      /\ wp_kind (aget (watchpoints (manager w))
                       (scan (manager w) ctx address)) <> kind) ->
  GDB_RemoveWatchpoint svc w ctx address kind = (- EINVAL, w, ctx).
Proof.
  intros H. unfold GDB_RemoveWatchpoint.
  replace (manager (RecursiveLock_Lock w)) with (manager w) by reflexivity.
  assert (E : (scan (manager w) ctx address =? 2)
              || negb (kind_eqb kind WATCHPOINT_DISABLED)
                 && negb (kind_eqb
                            (wp_kind (aget (watchpoints (manager w))
                                           (scan (manager w) ctx address)))
                            kind) = true).
  { destruct H as [H | [Hk Hs]].
    - rewrite H. reflexivity.
    - rewrite (kind_eqb_neq _ _ Hk), (kind_eqb_neq _ _ Hs).
      apply orb_true_r. }
  rewrite E, unlock_lock. reflexivity.
Qed.

(** Every way [GDB_RemoveWatchpoint] returns. *)
Lemma Remove_return_cases svc (w : World) (ctx : GDBContext) (address : Z)
  (kind : WatchpointKind) (r : Z) (w' : World) (ctx' : GDBContext) :
  GDB_RemoveWatchpoint svc w ctx address kind = (r, w', ctx') ->
  (r = - EINVAL /\ w' = w /\ ctx' = ctx)
  \/ (r = 0
      /\ (scan (manager w) ctx address = 0
          \/ scan (manager w) ctx address = 1)
      /\ w' = set_manager
                (add_calls w
                   [mkHwCall (4 + scan (manager w) ctx address) 0 0;
                    mkHwCall (Z.lor 0x100 (scan (manager w) ctx address)) 0 0])
                (released w (scan (manager w) ctx address))
      /\ ctx' = forget_address ctx address).
Proof.
  intros H.
  destruct (scan_range (manager w) ctx address) as [Hs | [Hs | Hs]].
  3: { rewrite Remove_refused in H by (left; exact Hs).
       injection H as <- <- <-. left. repeat split. }
  all: destruct (kind_eq_dec kind WATCHPOINT_DISABLED) as [Hk | Hk];
    [ rewrite (Remove_programs svc _ _ _ _ _ eq_refl) in H
        by ((left; exact Hk) || (rewrite Hs; tauto))
    | destruct (kind_eq_dec
                  (wp_kind (aget (watchpoints (manager w))
                                 (scan (manager w) ctx address))) kind)
        as [Hm | Hm];
      [ rewrite (Remove_programs svc _ _ _ _ _ eq_refl) in H
          by ((right; exact Hm) || (rewrite Hs; tauto))
      | rewrite Remove_refused in H by (right; split; assumption) ] ];
    injection H as <- <- <-;
    first [ right; repeat split; tauto | left; repeat split ].
Qed.

Lemma Remove_consistent svc (w : World) (ctx : GDBContext) (address : Z)
  (kind : WatchpointKind) (r : Z) (w' : World) (ctx' : GDBContext) :
  consistent (manager w) ->
  GDB_RemoveWatchpoint svc w ctx address kind = (r, w', ctx') ->
  (r = 0 ->
   occupied (aget (watchpoints (manager w)) (scan (manager w) ctx address))
   = true) ->
  consistent (manager w').
Proof.
  intros Hc H Hocc.
  destruct (Remove_return_cases _ _ _ _ _ _ _ _ H)
    as [(_ & -> & _) | (-> & Hid & -> & _)]; [exact Hc |].
  specialize (Hocc eq_refl).
  unfold consistent in *. unfold released, set_manager, add_calls.
  cbn [manager total watchpoints].
  pose proof (nb_occupied_range (manager w)) as Hr.
  unfold nb_occupied in *.
  destruct Hid as [E | E]; rewrite E in *;
    cbn [aget aset Z.eqb elt0 elt1 watchpoints] in *;
    rewrite Hocc in *;
    change (occupied zero_watchpoint) with false;
    destruct (occupied (elt0 (watchpoints (manager w))));
    destruct (occupied (elt1 (watchpoints (manager w))));
    try discriminate Hocc;
    (rewrite u32_small;
     [lia | unfold is_u32; change (2 ^ 32) with 4294967296; lia]).
Qed.

(** A return of [GDB_AddWatchpoint] leaves the lock as it found it, or one
    acquisition higher; the latter on the early exits only, which touch
    nothing else. *)
Lemma Add_lock_cases svc (w : World) (ctx : GDBContext) (address size : Z)
  (kind : WatchpointKind) (r : Z) (w' : World) (ctx' : GDBContext) :
  GDB_AddWatchpoint svc w ctx address size kind = Ret r w' ctx' ->
  watchpointManagerLock w' = watchpointManagerLock w
  \/ (r <> 0 /\ w' = RecursiveLock_Lock w
      /\ watchpointManagerLock w' = watchpointManagerLock w + 1).
Proof.
  intros H.
  destruct (Add_return_cases _ _ _ _ _ _ _ _ _ H)
    as [(Hr & -> & _) | [(_ & _ & calls & _ & ->) | (_ & _ & _ & -> & _)]].
  - right. repeat split. exact Hr.
  - left. reflexivity.
  - left. reflexivity.
Qed.

(** ** Defects *)

(** C1. From the Reset state, removing address 0 with
    [WATCHPOINT_DISABLED] selects slot 0, which is free (a cleared slot
    stores address 0), returns 0 and decrements [total]: [total] wraps to
    2^32 - 1 while no slot is occupied. The same state is reached when a
    session watches address 0, removes an address it never added (which
    frees its slot, matched by owner) and then removes address 0 with
    [WATCHPOINT_DISABLED]. *)
Theorem Remove_free_slot_decrements_total :
  exists sys,
    run hw_ok [CallReset; CallRemove 0 0 WATCHPOINT_DISABLED]
        (boot hw_ok [0x8001])
    = Some sys
    /\ scan (manager example_world) example_session 0 = 0
    /\ occupied (aget (watchpoints (manager example_world)) 0) = false
    /\ fst (fst (GDB_RemoveWatchpoint hw_ok example_world example_session 0
                                      WATCHPOINT_DISABLED)) = 0
    /\ total (manager (world sys)) = 4294967295
    /\ nb_occupied (manager (world sys)) = 0
    /\ exists sys',
         run hw_ok [CallAdd 0 0 4 WATCHPOINT_WRITE;
                    CallRemove 0 0x2000 WATCHPOINT_WRITE;
                    CallRemove 0 0 WATCHPOINT_DISABLED]
             (boot hw_ok [0x8001])
         = Some sys'
         /\ total (manager (world sys')) = 4294967295
         /\ nb_occupied (manager (world sys')) = 0.
Proof.
  eexists. repeat (split; [run_fact |]). eexists. run_example.
Qed.

(** C4. [GDB_AddWatchpoint] returns from its three early exits with the
    lock still acquired: after a request of size 0 from the Reset state
    the acquisition count is 1 where it was 0; the same holds of a
    duplicate request and of a request made when both slots are taken. *)
Theorem Add_early_exit_keeps_lock :
  watchpointManagerLock example_world = 0
  /\ GDB_AddWatchpoint hw_ok example_world example_session
                       0x1000 0 WATCHPOINT_WRITE
     = Ret (- EINVAL) (set_lock example_world 1) example_session
  /\ (exists sys,
        run hw_ok [CallAdd 0 0x1000 4 WATCHPOINT_WRITE] (boot hw_ok [0x8001])
        = Some sys
        /\ watchpointManagerLock (world sys) = 0
        /\ GDB_AddWatchpoint hw_ok (world sys) (new_context 0x8002)
             0x1000 1 WATCHPOINT_READ
           = Ret (- EINVAL) (set_lock (world sys) 1) (new_context 0x8002))
  /\ (exists sys,
        run hw_ok [CallAdd 0 0x1000 4 WATCHPOINT_WRITE;
                   CallAdd 1 0x2000 4 WATCHPOINT_WRITE]
            (boot hw_ok [0x8001; 0x8002])
        = Some sys
        /\ watchpointManagerLock (world sys) = 0
        /\ GDB_AddWatchpoint hw_ok (world sys) (new_context 0x8003)
             0x3000 4 WATCHPOINT_READ
           = Ret (- EBUSY) (set_lock (world sys) 1) (new_context 0x8003)).
Proof.
  split; [run_fact |]. split; [run_fact |].
  split; eexists; run_example.
Qed.

(** C5. From the Reset state, a new session's removal of address 0 with
    [WATCHPOINT_DISABLED] returns 0 and decrements the session's count
    from 0 to 2^32 - 1; the add that follows stores at that index of the
    session's two-entry cache. A count of 2 with an add that stores at
    index 2 is reached too, by removals that each free an occupied slot:
    the session's removals of 0x2000 free the slot that watches address 0,
    matched by owner, and the second one finds 0x2000 nowhere in the
    cache, so the count stays at 2 with one slot free. *)
Theorem Add_appends_out_of_bounds :
  (exists sys ctx,
     run hw_ok [CallRemove 0 0 WATCHPOINT_DISABLED] (boot hw_ok [0x8001])
     = Some sys
     /\ nth_error (sessions sys) 0 = Some ctx
     /\ nbWatchpoints ctx = 4294967295
     /\ GDB_AddWatchpoint hw_ok (world sys) ctx 0x1000 4 WATCHPOINT_WRITE
        = Undefined (OutOfBoundsStore 4294967295))
  /\ (exists sys ctx,
        run hw_ok [CallAdd 1 0x1000 1 WATCHPOINT_WRITE;
                   CallAdd 0 0x2000 1 WATCHPOINT_WRITE;
                   CallRemove 1 0x1000 WATCHPOINT_WRITE;
                   CallAdd 0 0 1 WATCHPOINT_WRITE;
                   CallRemove 0 0x2000 WATCHPOINT_WRITE;
                   CallAdd 0 0 1 WATCHPOINT_WRITE;
                   CallRemove 0 0x2000 WATCHPOINT_WRITE]
            (boot hw_ok [0x8001; 0x8002])
        = Some sys
        /\ nth_error (sessions sys) 0 = Some ctx
        /\ nbWatchpoints ctx = 2
        /\ total (manager (world sys)) = 1
        /\ GDB_AddWatchpoint hw_ok (world sys) ctx 0 1 WATCHPOINT_WRITE
           = Undefined (OutOfBoundsStore 2)).
Proof.
  split; do 2 eexists; run_example.
Qed.

(** C6. A session that holds one watchpoint, at 0x1000 in slot 0, asks for
    a second one at 0x2000 while slot 1 is free: the duplicate test finds
    slot 0 by its owner and the add returns [-EINVAL]. *)
Theorem Add_second_of_session_refused :
  exists sys ctx,
    run hw_ok [CallAdd 0 0x1000 4 WATCHPOINT_READ_WRITE] (boot hw_ok [0x8001])
    = Some sys
    /\ nth_error (sessions sys) 0 = Some ctx
    /\ ctx = mkContext 0x8001 (mkArray2 0x1000 0) 1
    /\ total (manager (world sys)) = 1
    /\ occupied (elt1 (watchpoints (manager (world sys)))) = false
    /\ scan (manager (world sys)) ctx 0x2000 = 0
    /\ GDB_AddWatchpoint hw_ok (world sys) ctx 0x2000 4 WATCHPOINT_WRITE
       = Ret (- EINVAL) (RecursiveLock_Lock (world sys)) ctx.
Proof.
  do 2 eexists. run_example.
Qed.

(** * Further properties *)

(** ** Lookup after addition *)

(** X1. After a successful [GDB_AddWatchpoint], the lookup of the same
    session and address answers with the kind that was added. *)
Theorem Add_then_lookup svc (w : World) (ctx : GDBContext) (address size : Z)
  (kind : WatchpointKind) (w' : World) (ctx' : GDBContext) :
  GDB_AddWatchpoint svc w ctx address size kind = Ret 0 w' ctx' ->
  GDB_GetWatchpointKind w' ctx' address = (kind, w', ctx').
Proof.
  intros H.
  destruct (Add_success_inv _ _ _ _ _ _ _ _ H)
    as (Hfull & Hn & Hfit & H32 & Hk & Hdup).
  destruct (Add_return_cases _ _ _ _ _ _ _ _ _ H)
    as [(Hr & _) | [(Hr & _) | (_ & _ & _ & -> & ->)]];
    try (exfalso; apply Hr; reflexivity).
  unfold GDB_GetWatchpointKind.
  cbn [set_manager manager].
  rewrite scan_committed by (reflexivity || exact Hdup).
  unfold committed. cbn [watchpoints].
  destruct (alloc_id_cases (manager w)) as [-> | ->]; reflexivity.
Qed.

Lemma Add_then_lookup_witness :
  GDB_GetWatchpointKind
    (set_manager
       (add_calls example_world
          [wrp_call (manager example_world) 0x1000 4 WATCHPOINT_READ_WRITE;
           brp_call (manager example_world) example_session])
       (committed example_world example_session 0x1000 4
                  WATCHPOINT_READ_WRITE))
    (mkContext 0x8001 (mkArray2 0x1000 0) 1) 0x1000
  = (WATCHPOINT_READ_WRITE,
     set_manager
       (add_calls example_world
          [wrp_call (manager example_world) 0x1000 4 WATCHPOINT_READ_WRITE;
           brp_call (manager example_world) example_session])
       (committed example_world example_session 0x1000 4
                  WATCHPOINT_READ_WRITE),
     mkContext 0x8001 (mkArray2 0x1000 0) 1).
Proof.
  apply (Add_then_lookup hw_ok example_world example_session 0x1000 4).
  vm_compute. reflexivity.
Defined.

(** ** What a failed call leaves *)

Lemma Add_return_codes svc (w : World) (ctx : GDBContext) (address size : Z)
  (kind : WatchpointKind) (r : Z) (w' : World) (ctx' : GDBContext) :
  GDB_AddWatchpoint svc w ctx address size kind = Ret r w' ctx' ->
  (total (manager w) = 2 /\ r = - EBUSY)
  \/ (total (manager w) <> 2 /\ r = - EINVAL)
  \/ (total (manager w) <> 2 /\ r = 0).
Proof.
  intros H.
  destruct (Z.eq_dec (total (manager w)) 2) as [Ht | Ht].
  { rewrite (Add_full _ _ _ _ _ _ Ht) in H. injection H as <- _ _.
    left. split; [exact Ht | reflexivity]. }
  right.
  destruct (Z.eq_dec size 0) as [Hs | Hs].
  { rewrite Add_invalid in H by (assumption || (left; assumption)).
    injection H as <- _ _. left. split; [exact Ht | reflexivity]. }
  destruct (Z_lt_dec 4 (u32 (offset_of address + size))) as [Hf | Hf].
  { rewrite Add_invalid in H by (assumption || (right; left; assumption)).
    injection H as <- _ _. left. split; [exact Ht | reflexivity]. }
  destruct (kind_eq_dec kind WATCHPOINT_DISABLED) as [Hk | Hk].
  { rewrite Add_invalid in H by (assumption || (right; right; assumption)).
    injection H as <- _ _. left. split; [exact Ht | reflexivity]. }
  destruct (kind_eq_dec (spec_GetKind (manager w) ctx address)
                        WATCHPOINT_DISABLED) as [Hd | Hd].
  2: { rewrite Add_duplicate in H by (assumption || lia).
       injection H as <- _ _. left. split; [exact Ht | reflexivity]. }
  destruct (Z_lt_dec size 32) as [H32 | H32].
  2: { rewrite Add_wide_shift in H by (assumption || lia). discriminate H. }
  rewrite Add_programs in H by (assumption || lia).
  cbv zeta in H.
  destruct (R_SUCCEEDED _) in H.
  - destruct (R_SUCCEEDED _) in H.
    + destruct (_ && _) in H; [| discriminate H].
      injection H as <- _ _. right. split; [exact Ht | reflexivity].
    + injection H as <- _ _. left. split; [exact Ht | reflexivity].
  - injection H as <- _ _. left. split; [exact Ht | reflexivity].
Qed.

(** X2. [GDB_AddWatchpoint] returns 0, [-EINVAL] or [-EBUSY], and [-EBUSY]
    exactly when [total] is 2. When it does not return 0 the manager (slot
    table and [total]) and the session are what they were: only the lock
    and the trace of kernel calls can differ. *)
Theorem Add_failure_keeps_state svc (w : World) (ctx : GDBContext)
  (address size : Z) (kind : WatchpointKind) (r : Z) (w' : World)
  (ctx' : GDBContext) :
  GDB_AddWatchpoint svc w ctx address size kind = Ret r w' ctx' ->
  (r = 0 \/ r = - EINVAL \/ r = - EBUSY)
  /\ (r = - EBUSY <-> total (manager w) = 2)
  /\ (r <> 0 ->
      manager w' = manager w /\ ctx' = ctx
      /\ lockInitialized w' = lockInitialized w).
Proof.
  intros H.
  pose proof (Add_return_codes _ _ _ _ _ _ _ _ _ H) as Hc.
  split; [| split].
  - destruct Hc as [(_ & ->) | [(_ & ->) | (_ & ->)]]; auto.
  - destruct Hc as [(Ht & ->) | [(Ht & ->) | (Ht & ->)]]; split; intros E;
      try assumption; try reflexivity; try contradiction; discriminate E.
  - intros Hr.
    destruct (Add_return_cases _ _ _ _ _ _ _ _ _ H)
      as [(_ & -> & ->) | [(_ & -> & calls & _ & ->) | (-> & _)]].
    + repeat split.
    + repeat split.
    + exfalso. apply Hr. reflexivity.
Qed.

Lemma Add_failure_keeps_state_witness :
  (- EINVAL = 0 \/ - EINVAL = - EINVAL \/ - EINVAL = - EBUSY)
  /\ (- EINVAL = - EBUSY <-> total (manager example_world) = 2)
  /\ (- EINVAL <> 0 ->
      manager (RecursiveLock_Lock example_world) = manager example_world
      /\ example_session = example_session
      /\ lockInitialized (RecursiveLock_Lock example_world)
         = lockInitialized example_world).
Proof.
  apply (Add_failure_keeps_state hw_ok example_world example_session
           0x2003 2 WATCHPOINT_WRITE).
  vm_compute. reflexivity.
Defined.

(** X3. [GDB_RemoveWatchpoint] returns 0 or [-EINVAL]. When it returns
    [-EINVAL] nothing has changed: the globals, the lock and the trace of
    kernel calls included, and the session. On every return the lock is
    at the count it had on entry. *)
Theorem Remove_failure_is_noop svc (w : World) (ctx : GDBContext)
  (address : Z) (kind : WatchpointKind) (r : Z) (w' : World)
  (ctx' : GDBContext) :
  GDB_RemoveWatchpoint svc w ctx address kind = (r, w', ctx') ->
  (r = 0 \/ r = - EINVAL)
  /\ (r = - EINVAL -> w' = w /\ ctx' = ctx)
  /\ watchpointManagerLock w' = watchpointManagerLock w
  /\ lockInitialized w' = lockInitialized w.
Proof.
  intros H.
  destruct (Remove_return_cases _ _ _ _ _ _ _ _ H)
    as [(-> & -> & ->) | (-> & _ & -> & ->)].
  - repeat split. right. reflexivity.
  - repeat split; try (left; reflexivity); discriminate.
Qed.

Lemma Remove_failure_is_noop_witness :
  (- EINVAL = 0 \/ - EINVAL = - EINVAL)
  /\ (- EINVAL = - EINVAL ->
      example_world = example_world /\ example_session = example_session)
  /\ watchpointManagerLock example_world = watchpointManagerLock example_world
  /\ lockInitialized example_world = lockInitialized example_world.
Proof.
  apply (Remove_failure_is_noop hw_ok example_world example_session
           0x2000 WATCHPOINT_WRITE).
  vm_compute. reflexivity.
Defined.

(** ** Removal after addition, in general *)

(** X4. For a session whose cache holds nothing past its count, a
    successful [GDB_AddWatchpoint] of any size and kind followed by the
    [GDB_RemoveWatchpoint] of the same address, with the same kind or with
    [WATCHPOINT_DISABLED], is undone: the removal returns 0, [total], the
    lock and the session are what they were before the add, the slot the
    add took is zeroed and the other slot untouched. The kernel has seen
    four calls: the watchpoint pair and the breakpoint pair programmed,
    then the breakpoint pair and the watchpoint pair disabled. *)
Theorem Add_then_Remove_any svc (w : World) (ctx : GDBContext)
  (address size : Z) (kind kind' : WatchpointKind) (w1 : World)
  (ctx1 : GDBContext) :
  is_u32 (total (manager w)) -> cache_compact ctx ->
  kind' = kind \/ kind' = WATCHPOINT_DISABLED ->
  GDB_AddWatchpoint svc w ctx address size kind = Ret 0 w1 ctx1 ->
  exists w2,
    GDB_RemoveWatchpoint svc w1 ctx1 address kind' = (0, w2, ctx)
    /\ total (manager w2) = total (manager w)
    /\ aget (watchpoints (manager w2)) (alloc_id (manager w)) = zero_watchpoint
    /\ aget (watchpoints (manager w2)) (1 - alloc_id (manager w))
       = aget (watchpoints (manager w)) (1 - alloc_id (manager w))
    /\ watchpointManagerLock w2 = watchpointManagerLock w
    /\ hw_calls w2
       = hw_calls w
         ++ [wrp_call (manager w) address size kind;
             brp_call (manager w) ctx;
             mkHwCall (4 + alloc_id (manager w)) 0 0;
             mkHwCall (0x100 + alloc_id (manager w)) 0 0].
Proof.
  intros Ht Hc Hk' H.
  destruct (Add_success_inv _ _ _ _ _ _ _ _ H)
    as (Hfull & Hn & Hfit & H32 & Hk & Hdup).
  destruct (Add_return_cases _ _ _ _ _ _ _ _ _ H)
    as [(Hr & _) | [(Hr & _) | (_ & _ & Hnb & -> & ->)]];
    try (exfalso; apply Hr; reflexivity).
  eexists. split.
  - rewrite (Remove_programs svc _ _ _ _ (alloc_id (manager w))).
    + rewrite forget_appended by assumption. reflexivity.
    + cbn [set_manager manager].
      apply scan_committed; [reflexivity | exact Hdup].
    + apply alloc_id_cases.
    + destruct Hk' as [-> | ->]; [right | left; reflexivity].
      cbn [set_manager manager committed watchpoints].
      destruct (alloc_id_cases (manager w)) as [-> | ->]; reflexivity.
  - unfold released, committed, set_manager, add_calls.
    cbn [manager total watchpoints watchpointManagerLock hw_calls].
    rewrite (u32_succ_pred _ Ht).
    rewrite (wrp_index _ (alloc_id_cases _)).
    rewrite <- app_assoc. cbn [app].
    destruct w as [[t [s0 s1]] n b l].
    cbn [manager total watchpoints watchpointManagerLock hw_calls].
    destruct (alloc_id_cases (mkManager t (mkArray2 s0 s1))) as [E | E];
      rewrite E; cbn [aget aset Z.eqb Z.sub Z.add Z.opp Z.pos_sub elt0 elt1];
      repeat split; reflexivity.
Qed.

Lemma Add_then_Remove_any_witness :
  exists w2,
    GDB_RemoveWatchpoint hw_ok
      (set_manager
         (add_calls example_world
            [wrp_call (manager example_world) 0x1002 2 WATCHPOINT_READ;
             brp_call (manager example_world) example_session])
         (committed example_world example_session 0x1002 2 WATCHPOINT_READ))
      (mkContext 0x8001 (mkArray2 0x1002 0) 1) 0x1002 WATCHPOINT_DISABLED
    = (0, w2, example_session)
    /\ total (manager w2) = total (manager example_world)
    /\ aget (watchpoints (manager w2)) (alloc_id (manager example_world))
       = zero_watchpoint
    /\ aget (watchpoints (manager w2)) (1 - alloc_id (manager example_world))
       = aget (watchpoints (manager example_world))
              (1 - alloc_id (manager example_world))
    /\ watchpointManagerLock w2 = watchpointManagerLock example_world
    /\ hw_calls w2
       = hw_calls example_world
         ++ [wrp_call (manager example_world) 0x1002 2 WATCHPOINT_READ;
             brp_call (manager example_world) example_session;
             mkHwCall (4 + alloc_id (manager example_world)) 0 0;
             mkHwCall (0x100 + alloc_id (manager example_world)) 0 0].
Proof.
  apply (Add_then_Remove_any hw_ok example_world example_session 0x1002 2
           WATCHPOINT_READ WATCHPOINT_DISABLED).
  - unfold is_u32. vm_compute. split; [discriminate | reflexivity].
  - unfold cache_compact. split; intros _; reflexivity.
  - right. reflexivity.
  - vm_compute. reflexivity.
Defined.

(** X5. After a successful [GDB_AddWatchpoint], the removal of the same
    address with another kind (not [WATCHPOINT_DISABLED]) returns
    [-EINVAL] and changes nothing: the slot stays occupied. *)
Theorem Add_then_Remove_other_kind svc (w : World) (ctx : GDBContext)
  (address size : Z) (kind kind' : WatchpointKind) (w1 : World)
  (ctx1 : GDBContext) :
  kind' <> kind -> kind' <> WATCHPOINT_DISABLED ->
  GDB_AddWatchpoint svc w ctx address size kind = Ret 0 w1 ctx1 ->
  GDB_RemoveWatchpoint svc w1 ctx1 address kind' = (- EINVAL, w1, ctx1)
  /\ occupied (aget (watchpoints (manager w1)) (alloc_id (manager w))) = true.
Proof.
  intros Hne Hd H.
  destruct (Add_success_inv _ _ _ _ _ _ _ _ H)
    as (Hfull & Hn & Hfit & H32 & Hk & Hdup).
  destruct (Add_return_cases _ _ _ _ _ _ _ _ _ H)
    as [(Hr & _) | [(Hr & _) | (_ & _ & Hnb & -> & ->)]];
    try (exfalso; apply Hr; reflexivity).
  assert (Hslot : aget (watchpoints (manager
             (set_manager
                (add_calls w [wrp_call (manager w) address size kind;
                              brp_call (manager w) ctx])
                (committed w ctx address size kind))))
             (alloc_id (manager w))
           = mkWatchpoint address size kind (debug ctx)).
  { cbn [set_manager manager committed watchpoints].
    destruct (alloc_id_cases (manager w)) as [-> | ->]; reflexivity. }
  split.
  - apply Remove_refused. right. split; [exact Hd |].
    cbn [set_manager manager] in *.
    rewrite scan_committed by (reflexivity || exact Hdup).
    rewrite Hslot. cbn [wp_kind]. congruence.
  - rewrite Hslot. unfold occupied. cbn [wp_kind].
    rewrite (kind_eqb_neq _ _ Hk). reflexivity.
Qed.

Lemma Add_then_Remove_other_kind_witness :
  GDB_RemoveWatchpoint hw_ok
    (set_manager
       (add_calls example_world
          [wrp_call (manager example_world) 0x3000 4 WATCHPOINT_WRITE;
           brp_call (manager example_world) example_session])
       (committed example_world example_session 0x3000 4 WATCHPOINT_WRITE))
    (mkContext 0x8001 (mkArray2 0x3000 0) 1) 0x3000 WATCHPOINT_READ
  = (- EINVAL,
     set_manager
       (add_calls example_world
          [wrp_call (manager example_world) 0x3000 4 WATCHPOINT_WRITE;
           brp_call (manager example_world) example_session])
       (committed example_world example_session 0x3000 4 WATCHPOINT_WRITE),
     mkContext 0x8001 (mkArray2 0x3000 0) 1)
  /\ occupied
       (aget (watchpoints
                (manager
                   (set_manager
                      (add_calls example_world
                         [wrp_call (manager example_world) 0x3000 4
                                   WATCHPOINT_WRITE;
                          brp_call (manager example_world) example_session])
                      (committed example_world example_session 0x3000 4
                                 WATCHPOINT_WRITE))))
             (alloc_id (manager example_world)))
     = true.
Proof.
  apply (Add_then_Remove_other_kind hw_ok example_world example_session
           0x3000 4 WATCHPOINT_WRITE WATCHPOINT_READ).
  - discriminate.
  - discriminate.
  - vm_compute. reflexivity.
Defined.

(** ** Reset *)

Lemma Reset_manager svc (w : World) :
  manager (GDB_ResetWatchpoints svc w) = zero_manager.
Proof. reflexivity. Qed.

Lemma spec_GetKind_zero (ctx : GDBContext) (address : Z) :
  spec_GetKind zero_manager ctx address = WATCHPOINT_DISABLED.
Proof.
  unfold spec_GetKind, zero_manager. cbn [watchpoints elt0 elt1].
  destruct (spec_matches ctx address zero_watchpoint); reflexivity.
Qed.

(** X6. After [GDB_ResetWatchpoints], whatever the state before it, the
    lookup answers [WATCHPOINT_DISABLED] for every session and address, and
    a removal that names a kind returns [-EINVAL] and changes nothing. *)
Theorem Reset_forgets_all svc (w : World) (ctx : GDBContext) (address : Z)
  (kind : WatchpointKind) :
  kind <> WATCHPOINT_DISABLED ->
  GDB_GetWatchpointKind (GDB_ResetWatchpoints svc w) ctx address
  = (WATCHPOINT_DISABLED, GDB_ResetWatchpoints svc w, ctx)
  /\ GDB_RemoveWatchpoint svc (GDB_ResetWatchpoints svc w) ctx address kind
     = (- EINVAL, GDB_ResetWatchpoints svc w, ctx).
Proof.
  intros Hk. split.
  - rewrite GetWatchpointKind_eq, Reset_manager, spec_GetKind_zero.
    reflexivity.
  - apply Remove_refused. rewrite Reset_manager.
    destruct (scan_range zero_manager ctx address) as [E | [E | E]].
    + right. split; [exact Hk |]. rewrite E. cbn. congruence.
    + right. split; [exact Hk |]. rewrite E. cbn. congruence.
    + left. exact E.
Qed.

Lemma Reset_forgets_all_witness :
  GDB_GetWatchpointKind (GDB_ResetWatchpoints hw_ok example_world)
                        example_session 0
  = (WATCHPOINT_DISABLED, GDB_ResetWatchpoints hw_ok example_world,
     example_session)
  /\ GDB_RemoveWatchpoint hw_ok (GDB_ResetWatchpoints hw_ok example_world)
                          example_session 0 WATCHPOINT_WRITE
     = (- EINVAL, GDB_ResetWatchpoints hw_ok example_world, example_session).
Proof.
  apply (Reset_forgets_all hw_ok example_world example_session 0
           WATCHPOINT_WRITE).
  discriminate.
Defined.

Lemma Reset_eq svc (w : World) :
  GDB_ResetWatchpoints svc w
  = mkWorld zero_manager
            (if lockInitialized w then watchpointManagerLock w else 0)
            true (hw_calls w ++ reset_calls).
Proof.
  destruct w as [m n b l].
  unfold GDB_ResetWatchpoints. cbn [lockInitialized].
  destruct b;
    unfold svcSetHardwareBreakPoint, RecursiveLock_Unlock,
      RecursiveLock_Lock, RecursiveLock_Init, set_lock, set_lockInitialized,
      set_manager, reset_calls;
    cbn [manager hw_calls watchpointManagerLock lockInitialized snd];
    rewrite <- !app_assoc; cbn [app]; f_equal; lia.
Qed.

(** X7. [GDB_ResetWatchpoints] makes exactly four kernel calls, the
    disabled encoding on pairs 4, 0x100, 5 and 0x101 in this order,
    whatever their results, and leaves a zeroed manager and an initialized
    lock. A second reset in a row only repeats the four calls: the
    manager, the lock and its initialization flag are those the first one
    left. *)
Theorem Reset_twice svc (w : World) :
  hw_calls (GDB_ResetWatchpoints svc w) = hw_calls w ++ reset_calls
  /\ manager (GDB_ResetWatchpoints svc w) = zero_manager
  /\ lockInitialized (GDB_ResetWatchpoints svc w) = true
  /\ watchpointManagerLock (GDB_ResetWatchpoints svc w)
     = (if lockInitialized w then watchpointManagerLock w else 0)
  /\ GDB_ResetWatchpoints svc (GDB_ResetWatchpoints svc w)
     = add_calls (GDB_ResetWatchpoints svc w) reset_calls.
Proof.
  rewrite (Reset_eq svc (GDB_ResetWatchpoints svc w)).
  rewrite (Reset_eq svc w).
  cbn [hw_calls manager lockInitialized watchpointManagerLock add_calls].
  repeat split.
Qed.

(** ** Addition into a reset manager *)

(** X8. Right after [GDB_ResetWatchpoints], a request of a valid kind for
    1 to 4 bytes inside one aligned word, by a session with room in its
    cache, succeeds if the kernel accepts its two calls: it takes slot 0,
    [total] becomes 1, slot 1 stays cleared, and the address is appended
    to the session's cache. *)
Theorem Add_after_Reset svc (w : World) (ctx : GDBContext)
  (address size : Z) (kind : WatchpointKind) :
  is_u32 address -> 1 <= size -> address mod 4 + size <= 4 ->
  kind <> WATCHPOINT_DISABLED ->
  0 <= nbWatchpoints ctx < 2 ->
  0 <= svc (hw_calls (GDB_ResetWatchpoints svc w))
           (wrp_call zero_manager address size kind) ->
  0 <= svc (hw_calls (GDB_ResetWatchpoints svc w)
            ++ [wrp_call zero_manager address size kind])
           (brp_call zero_manager ctx) ->
  exists w',
    GDB_AddWatchpoint svc (GDB_ResetWatchpoints svc w) ctx address size kind
    = Ret 0 w'
          (mkContext (debug ctx)
             (aset (ctx_watchpoints ctx) (nbWatchpoints ctx) address)
             (nbWatchpoints ctx + 1))
    /\ manager w'
       = mkManager 1
           (mkArray2 (mkWatchpoint address size kind (debug ctx))
                     zero_watchpoint).
Proof.
  intros Ha Hs Hfit Hk Hnb H1 H2.
  pose proof (Z.mod_pos_bound address 4 eq_refl) as Hoff.
  exists (set_manager
            (add_calls (GDB_ResetWatchpoints svc w)
               [wrp_call zero_manager address size kind;
                brp_call zero_manager ctx])
            (committed (GDB_ResetWatchpoints svc w) ctx address size kind)).
  split; [| reflexivity].
  rewrite Add_programs.
  - rewrite !Reset_manager. cbv zeta. unfold R_SUCCEEDED.
    apply Z.leb_le in H1. rewrite H1.
    apply Z.leb_le in H2. rewrite H2.
    replace ((0 <=? nbWatchpoints ctx) && (nbWatchpoints ctx <? 2))
      with true
      by (symmetry; apply andb_true_iff; split;
          [apply Z.leb_le | apply Z.ltb_lt]; lia).
    rewrite (u32_small (nbWatchpoints ctx + 1))
      by (unfold is_u32; change (2 ^ 32) with 4294967296; lia).
    reflexivity.
  - rewrite Reset_manager. discriminate.
  - lia.
  - rewrite (offset_mod4 _ Ha). rewrite u32_small; [lia |].
    unfold is_u32. change (2 ^ 32) with 4294967296. lia.
  - lia.
  - exact Hk.
  - rewrite Reset_manager. apply spec_GetKind_zero.
Qed.

Lemma Add_after_Reset_witness :
  exists w',
    GDB_AddWatchpoint hw_ok (GDB_ResetWatchpoints hw_ok power_on)
                      example_session 0x1000 4 WATCHPOINT_READ_WRITE
    = Ret 0 w'
          (mkContext (debug example_session)
             (aset (ctx_watchpoints example_session)
                   (nbWatchpoints example_session) 0x1000)
             (nbWatchpoints example_session + 1))
    /\ manager w'
       = mkManager 1
           (mkArray2 (mkWatchpoint 0x1000 4 WATCHPOINT_READ_WRITE
                                   (debug example_session))
                     zero_watchpoint).
Proof.
  apply (Add_after_Reset hw_ok power_on example_session 0x1000 4
           WATCHPOINT_READ_WRITE).
  - unfold is_u32. vm_compute. split; [discriminate | reflexivity].
  - lia.
  - vm_compute. discriminate.
  - discriminate.
  - vm_compute. split; [discriminate | reflexivity].
  - vm_compute. discriminate.
  - vm_compute. discriminate.
Defined.

(** ** Allocation *)

(** X9. When [total] is the number of occupied slots, a successful
    [GDB_AddWatchpoint] takes a free slot, the lowest one: slot 1 only
    when slot 0 is occupied. The other slot is untouched, one more slot
    is occupied, and [total] is again the number of occupied slots. *)
Theorem Add_takes_lowest_free_slot svc (w : World) (ctx : GDBContext)
  (address size : Z) (kind : WatchpointKind) (w' : World) (ctx' : GDBContext) :
  consistent (manager w) ->
  GDB_AddWatchpoint svc w ctx address size kind = Ret 0 w' ctx' ->
  occupied (aget (watchpoints (manager w)) (alloc_id (manager w))) = false
  /\ (alloc_id (manager w) = 1 ->
      occupied (elt0 (watchpoints (manager w))) = true)
  /\ aget (watchpoints (manager w')) (1 - alloc_id (manager w))
     = aget (watchpoints (manager w)) (1 - alloc_id (manager w))
  /\ nb_occupied (manager w') = nb_occupied (manager w) + 1
  /\ consistent (manager w').
Proof.
  intros Hc H.
  pose proof (Add_consistent _ _ _ _ _ _ _ _ _ Hc H) as Hc'.
  destruct (Add_success_inv _ _ _ _ _ _ _ _ H)
    as (Hfull & _ & _ & _ & Hk & _).
  destruct (Add_return_cases _ _ _ _ _ _ _ _ _ H)
    as [(Hr & _) | [(Hr & _) | (_ & _ & _ & -> & _)]];
    try (exfalso; apply Hr; reflexivity).
  split; [| split; [| split; [| split; [| exact Hc']]]].
  - unfold consistent, nb_occupied in Hc. unfold alloc_id, occupied in *.
    change (aget (watchpoints (manager w)) 0)
      with (elt0 (watchpoints (manager w))).
    destruct (kind_eqb (wp_kind (elt0 (watchpoints (manager w))))
                       WATCHPOINT_DISABLED) eqn:E0.
    + cbn [aget Z.eqb]. rewrite E0. reflexivity.
    + cbn [aget Z.eqb]. cbn [negb] in Hc.
      destruct (kind_eqb (wp_kind (elt1 (watchpoints (manager w))))
                         WATCHPOINT_DISABLED); [reflexivity |].
      cbn [negb] in Hc. exfalso. apply Hfull. rewrite Hc. reflexivity.
  - unfold alloc_id, occupied.
    change (aget (watchpoints (manager w)) 0)
      with (elt0 (watchpoints (manager w))).
    destruct (kind_eqb (wp_kind (elt0 (watchpoints (manager w))))
                       WATCHPOINT_DISABLED); [discriminate | reflexivity].
  - cbn [set_manager manager committed watchpoints].
    destruct (alloc_id_cases (manager w)) as [-> | ->]; reflexivity.
  - unfold consistent in Hc, Hc'. rewrite <- Hc, <- Hc'.
    cbn [set_manager manager committed total].
    pose proof (nb_occupied_range (manager w)) as Hr.
    apply u32_small. unfold is_u32. change (2 ^ 32) with 4294967296. lia.
Qed.

Lemma Add_takes_lowest_free_slot_witness :
  occupied (aget (watchpoints (manager example_world))
                 (alloc_id (manager example_world))) = false
  /\ (alloc_id (manager example_world) = 1 ->
      occupied (elt0 (watchpoints (manager example_world))) = true)
  /\ aget (watchpoints
             (manager
                (set_manager
                   (add_calls example_world
                      [wrp_call (manager example_world) 0x1000 4
                                WATCHPOINT_WRITE;
                       brp_call (manager example_world) example_session])
                   (committed example_world example_session 0x1000 4
                              WATCHPOINT_WRITE))))
          (1 - alloc_id (manager example_world))
     = aget (watchpoints (manager example_world))
            (1 - alloc_id (manager example_world))
  /\ nb_occupied
       (manager
          (set_manager
             (add_calls example_world
                [wrp_call (manager example_world) 0x1000 4 WATCHPOINT_WRITE;
                 brp_call (manager example_world) example_session])
             (committed example_world example_session 0x1000 4
                        WATCHPOINT_WRITE)))
     = nb_occupied (manager example_world) + 1
  /\ consistent
       (manager
          (set_manager
             (add_calls example_world
                [wrp_call (manager example_world) 0x1000 4 WATCHPOINT_WRITE;
                 brp_call (manager example_world) example_session])
             (committed example_world example_session 0x1000 4
                        WATCHPOINT_WRITE))).
Proof.
  apply (Add_takes_lowest_free_slot hw_ok example_world example_session
           0x1000 4 WATCHPOINT_WRITE _
           (mkContext 0x8001 (mkArray2 0x1000 0) 1)).
  - reflexivity.
  - vm_compute. reflexivity.
Defined.

(** ** Duplicates *)

Lemma spec_matches_zero (ctx : GDBContext) (address : Z) :
  address <> 0 -> debug ctx <> 0 ->
  spec_matches ctx address zero_watchpoint = false.
Proof.
  intros Ha Hd. apply spec_matches_false; cbn; congruence.
Qed.

Lemma occupied_kind (s : Watchpoint) :
  occupied s = true -> wp_kind s <> WATCHPOINT_DISABLED.
Proof.
  unfold occupied. intros H E. rewrite E in H. discriminate H.
Qed.

(** With free slots cleared, a non-zero address and a non-zero handle, the
    scan never stops at a free slot. *)
Lemma scan_occupied (m : WatchpointManager) (ctx : GDBContext) (address : Z) :
  slot_clear (elt0 (watchpoints m)) -> slot_clear (elt1 (watchpoints m)) ->
  address <> 0 -> debug ctx <> 0 ->
  scan m ctx address = 2
  \/ occupied (aget (watchpoints m) (scan m ctx address)) = true.
Proof.
  intros H0 H1 Ha Hd. rewrite scan_cases.
  destruct (spec_matches ctx address (elt0 (watchpoints m))) eqn:E0.
  - right. destruct H0 as [H0 | H0]; [exact H0 |].
    rewrite H0, spec_matches_zero in E0 by assumption. discriminate E0.
  - destruct (spec_matches ctx address (elt1 (watchpoints m))) eqn:E1.
    + right. destruct H1 as [H1 | H1]; [exact H1 |].
      rewrite H1, spec_matches_zero in E1 by assumption. discriminate E1.
    + left. reflexivity.
Qed.

(** X10. When the free slots are cleared, a request for a non-zero address
    that an occupied slot already stores, by a session whose handle is
    not zero, is refused whatever its size and kind: the call returns
    [-EINVAL] or [-EBUSY] from an early exit and changes nothing but the
    lock. *)
Theorem Add_rejects_stored_address svc (w : World) (ctx : GDBContext)
  (address size : Z) (kind : WatchpointKind) :
  slot_clear (elt0 (watchpoints (manager w))) ->
  slot_clear (elt1 (watchpoints (manager w))) ->
  address <> 0 -> debug ctx <> 0 ->
  (occupied (elt0 (watchpoints (manager w))) = true
   /\ wp_address (elt0 (watchpoints (manager w))) = address)
  \/ (occupied (elt1 (watchpoints (manager w))) = true
      /\ wp_address (elt1 (watchpoints (manager w))) = address) ->
  exists r,
    GDB_AddWatchpoint svc w ctx address size kind
    = Ret r (RecursiveLock_Lock w) ctx
    /\ (r = - EINVAL \/ r = - EBUSY).
Proof.
  intros H0 H1 Ha Hd Hst.
  assert (Hdup : spec_GetKind (manager w) ctx address <> WATCHPOINT_DISABLED).
  { unfold spec_GetKind.
    destruct (spec_matches ctx address (elt0 (watchpoints (manager w))))
      eqn:E0.
    - destruct H0 as [H0 | H0]; [apply occupied_kind; exact H0 |].
      rewrite H0, spec_matches_zero in E0 by assumption. discriminate E0.
    - destruct Hst as [(_ & Hs) | (Ho & Hs)].
      + unfold spec_matches in E0. rewrite Hs, Z.eqb_refl in E0.
        discriminate E0.
      + assert (E1 : spec_matches ctx address
                       (elt1 (watchpoints (manager w))) = true).
        { unfold spec_matches. rewrite Hs, Z.eqb_refl. reflexivity. }
        rewrite E1. apply occupied_kind. exact Ho. }
  destruct (Z.eq_dec (total (manager w)) 2) as [Ht | Ht].
  { exists (- EBUSY). split; [apply Add_full; exact Ht | right; reflexivity]. }
  exists (- EINVAL). split; [| left; reflexivity].
  destruct (Z.eq_dec size 0) as [Hs | Hs].
  { apply Add_invalid; [exact Ht | left; exact Hs]. }
  destruct (Z_lt_dec 4 (u32 (offset_of address + size))) as [Hf | Hf].
  { apply Add_invalid; [exact Ht | right; left; exact Hf]. }
  destruct (kind_eq_dec kind WATCHPOINT_DISABLED) as [Hk | Hk].
  { apply Add_invalid; [exact Ht | right; right; exact Hk]. }
  apply Add_duplicate; try assumption. lia.
Qed.

Lemma Add_rejects_stored_address_witness :
  exists r,
    GDB_AddWatchpoint hw_ok
      (set_manager example_world
         (mkManager 1
            (mkArray2 (mkWatchpoint 0x1000 4 WATCHPOINT_READ_WRITE 0x8001)
                      zero_watchpoint)))
      (new_context 0x8002) 0x1000 1 WATCHPOINT_WRITE
    = Ret r
          (RecursiveLock_Lock
             (set_manager example_world
                (mkManager 1
                   (mkArray2
                      (mkWatchpoint 0x1000 4 WATCHPOINT_READ_WRITE 0x8001)
                      zero_watchpoint))))
          (new_context 0x8002)
    /\ (r = - EINVAL \/ r = - EBUSY).
Proof.
  apply (Add_rejects_stored_address hw_ok
           (set_manager example_world
              (mkManager 1
                 (mkArray2
                    (mkWatchpoint 0x1000 4 WATCHPOINT_READ_WRITE 0x8001)
                    zero_watchpoint)))
           (new_context 0x8002) 0x1000 1 WATCHPOINT_WRITE).
  - left. reflexivity.
  - right. reflexivity.
  - discriminate.
  - discriminate.
  - left. split; reflexivity.
Defined.

(** ** The address split and the byte-select mask *)

(** X11. For a [u32] address, [address & ~3] is a [u32] multiple of 4,
    the offset [address - (address & ~3)] is the remainder of the address
    modulo 4, and the two add up to the address. *)
Theorem aligned_offset_split (address : Z) :
  is_u32 address ->
  is_u32 (aligned address)
  /\ aligned address mod 4 = 0
  /\ offset_of address = address mod 4
  /\ aligned address + offset_of address = address.
Proof.
  intros H.
  pose proof (Z.mod_pos_bound address 4 eq_refl) as Hoff.
  rewrite (offset_mod4 _ H), (aligned_div _ H).
  unfold is_u32 in *. change (2 ^ 32) with 4294967296 in *.
  assert (Hle : address mod 4 <= address) by (apply Z.mod_le; lia).
  split; [lia |]. split; [| split; [reflexivity | lia]].
  rewrite Zminus_mod_idemp_r. replace (address - address) with 0 by lia.
  reflexivity.
Qed.

Lemma aligned_offset_split_witness :
  is_u32 (aligned 0x2003)
  /\ aligned 0x2003 mod 4 = 0
  /\ offset_of 0x2003 = 0x2003 mod 4
  /\ aligned 0x2003 + offset_of 0x2003 = 0x2003.
Proof.
  apply (aligned_offset_split 0x2003).
  unfold is_u32. vm_compute. split; [discriminate | reflexivity].
Defined.

Lemma small_bits_high (v i : Z) :
  0 <= v < 16 -> 4 <= i -> Z.testbit v i = false.
Proof.
  intros Hv Hi.
  destruct (Z.eq_dec v 0) as [-> | Hz]; [apply Z.bits_0 |].
  apply Z.bits_above_log2; [lia |].
  apply Z.lt_le_trans with 4; [| exact Hi].
  apply Z.log2_lt_pow2; [lia |]. change (2 ^ 4) with 16. lia.
Qed.

Lemma select_mask_value (size offset : Z) :
  1 <= size -> 0 <= offset -> offset + size <= 4 ->
  select_mask size offset = (2 ^ size - 1) * 2 ^ offset
  /\ 0 < select_mask size offset < 16.
Proof.
  intros Hs Ho Hfit.
  assert (Hsz : size = 1 \/ size = 2 \/ size = 3 \/ size = 4) by lia.
  assert (Hoff : offset = 0 \/ offset = 1 \/ offset = 2 \/ offset = 3) by lia.
  destruct Hsz as [-> | [-> | [-> | ->]]];
    destruct Hoff as [-> | [-> | [-> | ->]]];
    try lia; vm_compute; repeat split; congruence.
Qed.

(** X12. The byte-select mask of a request of 1 to 4 bytes inside one
    aligned word selects byte [i] of the word exactly when the watched
    region covers it: bit [i] is set if and only if
    [offset <= i < offset + size]. *)
Theorem select_mask_bits (size offset i : Z) :
  1 <= size -> 0 <= offset -> offset + size <= 4 -> 0 <= i ->
  Z.testbit (select_mask size offset) i
  = (offset <=? i) && (i <? offset + size).
Proof.
  intros Hs Ho Hfit Hi.
  destruct (Z_lt_dec i 4) as [Hlt | Hge].
  - assert (Hsz : size = 1 \/ size = 2 \/ size = 3 \/ size = 4) by lia.
    assert (Hoff : offset = 0 \/ offset = 1 \/ offset = 2 \/ offset = 3)
      by lia.
    assert (Hii : i = 0 \/ i = 1 \/ i = 2 \/ i = 3) by lia.
    destruct Hsz as [-> | [-> | [-> | ->]]];
      destruct Hoff as [-> | [-> | [-> | ->]]];
      try lia;
      destruct Hii as [-> | [-> | [-> | ->]]];
      vm_compute; reflexivity.
  - destruct (select_mask_value size offset Hs Ho Hfit) as [_ Hr].
    rewrite small_bits_high by lia.
    replace (i <? offset + size) with false
      by (symmetry; apply Z.ltb_ge; lia).
    symmetry. apply andb_false_r.
Qed.

Lemma select_mask_bits_witness :
  Z.testbit (select_mask 2 1) 2 = (1 <=? 2) && (2 <? 1 + 2).
Proof.
  apply (select_mask_bits 2 1 2); lia.
Defined.

(** X13. The fields of the watchpoint control word can be read back: for
    a slot 0 or 1 and a request of 1 to 4 bytes inside one aligned word,
    bits 16 to 19 hold the index [4 + id] of the linked breakpoint pair,
    bits 5 to 8 the byte-select mask, bits 3 and 4 the kind, bits 1 and 2
    the value 2 (user mode only); bit 20 (linked) and bit 0 (enabled) are
    set, and nothing is set from bit 21 up. *)
Theorem WCR_decode (id size offset : Z) (kind : WatchpointKind) :
  id = 0 \/ id = 1 -> 1 <= size -> 0 <= offset -> offset + size <= 4 ->
  Z.land (Z.shiftr (WCR id (select_mask size offset) kind) 16) 0xF = 4 + id
  /\ Z.land (Z.shiftr (WCR id (select_mask size offset) kind) 5) 0xF
     = select_mask size offset
  /\ Z.land (Z.shiftr (WCR id (select_mask size offset) kind) 3) 3
     = kind_value kind
  /\ Z.land (Z.shiftr (WCR id (select_mask size offset) kind) 1) 3 = 2
  /\ Z.testbit (WCR id (select_mask size offset) kind) 20 = true
  /\ Z.testbit (WCR id (select_mask size offset) kind) 0 = true
  /\ Z.shiftr (WCR id (select_mask size offset) kind) 21 = 0.
Proof.
  intros Hid Hs Ho Hfit.
  assert (Hsz : size = 1 \/ size = 2 \/ size = 3 \/ size = 4) by lia.
  assert (Hoff : offset = 0 \/ offset = 1 \/ offset = 2 \/ offset = 3) by lia.
  destruct Hid as [-> | ->];
    destruct Hsz as [-> | [-> | [-> | ->]]];
    destruct Hoff as [-> | [-> | [-> | ->]]];
    try lia; destruct kind; vm_compute; repeat split.
Qed.

Lemma WCR_decode_witness :
  Z.land (Z.shiftr (WCR 1 (select_mask 2 2) WATCHPOINT_READ) 16) 0xF = 4 + 1
  /\ Z.land (Z.shiftr (WCR 1 (select_mask 2 2) WATCHPOINT_READ) 5) 0xF
     = select_mask 2 2
  /\ Z.land (Z.shiftr (WCR 1 (select_mask 2 2) WATCHPOINT_READ) 3) 3
     = kind_value WATCHPOINT_READ
  /\ Z.land (Z.shiftr (WCR 1 (select_mask 2 2) WATCHPOINT_READ) 1) 3 = 2
  /\ Z.testbit (WCR 1 (select_mask 2 2) WATCHPOINT_READ) 20 = true
  /\ Z.testbit (WCR 1 (select_mask 2 2) WATCHPOINT_READ) 0 = true
  /\ Z.shiftr (WCR 1 (select_mask 2 2) WATCHPOINT_READ) 21 = 0.
Proof.
  apply (WCR_decode 1 2 2 WATCHPOINT_READ); [right; reflexivity | lia ..].
Defined.

(** ** The region test *)

(** X14. When [total] is not 2, a request whose region ends past the
    aligned word of its address, with a size short of wrapping the sum
    [offset + size] around 2^32, returns [-EINVAL] from the argument test
    and changes nothing but the lock. *)
Theorem Add_rejects_crossing svc (w : World) (ctx : GDBContext)
  (address size : Z) (kind : WatchpointKind) :
  is_u32 address ->
  total (manager w) <> 2 ->
  4 < address mod 4 + size -> address mod 4 + size < 2 ^ 32 ->
  GDB_AddWatchpoint svc w ctx address size kind
  = Ret (- EINVAL) (RecursiveLock_Lock w) ctx.
Proof.
  intros Ha Ht Hlo Hhi.
  apply Add_invalid; [exact Ht |]. right. left.
  rewrite (offset_mod4 _ Ha). rewrite u32_small; [exact Hlo |].
  unfold is_u32. lia.
Qed.

Lemma Add_rejects_crossing_witness :
  GDB_AddWatchpoint hw_ok example_world example_session
                    0x2003 2 WATCHPOINT_WRITE
  = Ret (- EINVAL) (RecursiveLock_Lock example_world) example_session.
Proof.
  apply (Add_rejects_crossing hw_ok example_world example_session 0x2003 2
           WATCHPOINT_WRITE).
  - unfold is_u32. vm_compute. split; [discriminate | reflexivity].
  - vm_compute. discriminate.
  - vm_compute. reflexivity.
  - vm_compute. reflexivity.
Defined.

(** X15. The region test is made in 32-bit arithmetic: for an address
    that is not word-aligned, a [u32] size so large that [offset + size]
    wraps around 2^32 passes it. With [total] not 2, a valid kind and a
    lookup that answers [WATCHPOINT_DISABLED], the call then reaches
    [1 << size] with a size of 32 or more, which C leaves undefined, before
    any kernel call. *)
Theorem Add_wrapping_size_passes svc (w : World) (ctx : GDBContext)
  (address size : Z) (kind : WatchpointKind) :
  is_u32 address -> is_u32 size ->
  2 ^ 32 <= address mod 4 + size ->
  total (manager w) <> 2 ->
  kind <> WATCHPOINT_DISABLED ->
  fst (fst (GDB_GetWatchpointKind w ctx address)) = WATCHPOINT_DISABLED ->
  u32 (offset_of address + size) <= 4
  /\ GDB_AddWatchpoint svc w ctx address size kind
     = Undefined (ShiftTooWide size).
Proof.
  intros Ha Hs Hwrap Ht Hk Hd.
  rewrite GetWatchpointKind_eq in Hd. cbn [fst] in Hd.
  pose proof (Z.mod_pos_bound address 4 eq_refl) as Hoff.
  unfold is_u32 in Hs. change (2 ^ 32) with 4294967296 in *.
  assert (Hfit : u32 (offset_of address + size) <= 4).
  { rewrite (offset_mod4 _ Ha). unfold u32.
    change (2 ^ 32) with 4294967296.
    replace (address mod 4 + size)
      with (address mod 4 + size - 4294967296 + 1 * 4294967296) by lia.
    rewrite Z_mod_plus_full. rewrite Z.mod_small; lia. }
  split; [exact Hfit |].
  apply Add_wide_shift; try assumption; lia.
Qed.

Lemma Add_wrapping_size_passes_witness :
  u32 (offset_of 0x1001 + 0xFFFFFFFF) <= 4
  /\ GDB_AddWatchpoint hw_ok example_world example_session
                       0x1001 0xFFFFFFFF WATCHPOINT_WRITE
     = Undefined (ShiftTooWide 0xFFFFFFFF).
Proof.
  apply (Add_wrapping_size_passes hw_ok example_world example_session
           0x1001 0xFFFFFFFF WATCHPOINT_WRITE).
  - unfold is_u32. vm_compute. split; [discriminate | reflexivity].
  - unfold is_u32. vm_compute. split; [discriminate | reflexivity].
  - vm_compute. discriminate.
  - vm_compute. discriminate.
  - discriminate.
  - vm_compute. reflexivity.
Defined.

(** ** Runs: what every reachable state satisfies *)

Lemma step_cases svc (sys : System) (c : Call) (sys' : System) :
  step svc sys c = Some sys' ->
  (c = CallReset
   /\ sys' = mkSystem (GDB_ResetWatchpoints svc (world sys)) (sessions sys))
  \/ (exists s address size kind ctx r w ctx',
        c = CallAdd s address size kind
        /\ nth_error (sessions sys) s = Some ctx
        /\ GDB_AddWatchpoint svc (world sys) ctx address size kind
           = Ret r w ctx'
        /\ sys' = mkSystem w (set_session (sessions sys) s ctx'))
  \/ (exists s address kind ctx r w ctx',
        c = CallRemove s address kind
        /\ nth_error (sessions sys) s = Some ctx
        /\ GDB_RemoveWatchpoint svc (world sys) ctx address kind
           = (r, w, ctx')
        /\ sys' = mkSystem w (set_session (sessions sys) s ctx')).
Proof.
  destruct c as [| s address size kind | s address kind]; cbn [step].
  - intros H. injection H as <-. left. split; reflexivity.
  - destruct (nth_error (sessions sys) s) as [ctx |] eqn:En;
      [| discriminate].
    destruct (GDB_AddWatchpoint svc (world sys) ctx address size kind)
      as [r w ctx' | u] eqn:Ea; [| discriminate].
    intros H. injection H as <-. right. left.
    exists s, address, size, kind, ctx, r, w, ctx'. repeat split; assumption.
  - destruct (nth_error (sessions sys) s) as [ctx |] eqn:En;
      [| discriminate].
    destruct (GDB_RemoveWatchpoint svc (world sys) ctx address kind)
      as [[r w] ctx'] eqn:Er.
    intros H. injection H as <-. right. right.
    exists s, address, kind, ctx, r, w, ctx'. repeat split; assumption.
Qed.

(** A property of the state that every call with property [Q] preserves
    holds after every run of such calls. *)
Lemma run_invariant svc (P : System -> Prop) (Q : Call -> Prop) :
  (forall sys c sys', P sys -> Q c -> step svc sys c = Some sys' -> P sys') ->
  forall calls sys sys',
    Forall Q calls -> P sys -> run svc calls sys = Some sys' -> P sys'.
Proof.
  intros Hstep calls.
  induction calls as [| c calls IH]; intros sys sys' HQ HP Hrun.
  - cbn in Hrun. injection Hrun as <-. exact HP.
  - cbn [run] in Hrun.
    destruct (step svc sys c) as [sys1 |] eqn:Es; [| discriminate].
    inversion HQ as [| ? ? Hc Hcs]; subst.
    apply (IH sys1 sys' Hcs); [| exact Hrun].
    apply (Hstep sys c sys1 HP Hc Es).
Qed.

(** The kernel calls of a returning [GDB_AddWatchpoint]. *)
Lemma Add_trace svc (w : World) (ctx : GDBContext) (address size : Z)
  (kind : WatchpointKind) (r : Z) (w' : World) (ctx' : GDBContext) :
  GDB_AddWatchpoint svc w ctx address size kind = Ret r w' ctx' ->
  hw_calls w' = hw_calls w
  \/ hw_calls w' = hw_calls w ++ [wrp_call (manager w) address size kind]
  \/ hw_calls w' = hw_calls w ++ [wrp_call (manager w) address size kind;
                                  brp_call (manager w) ctx].
Proof.
  intros H.
  destruct (Z.eq_dec (total (manager w)) 2) as [Ht | Ht].
  { rewrite (Add_full _ _ _ _ _ _ Ht) in H. injection H as _ <- _.
    left. reflexivity. }
  destruct (Z.eq_dec size 0) as [Hs | Hs].
  { rewrite Add_invalid in H by (assumption || (left; assumption)).
    injection H as _ <- _. left. reflexivity. }
  destruct (Z_lt_dec 4 (u32 (offset_of address + size))) as [Hf | Hf].
  { rewrite Add_invalid in H by (assumption || (right; left; assumption)).
    injection H as _ <- _. left. reflexivity. }
  destruct (kind_eq_dec kind WATCHPOINT_DISABLED) as [Hk | Hk].
  { rewrite Add_invalid in H by (assumption || (right; right; assumption)).
    injection H as _ <- _. left. reflexivity. }
  destruct (kind_eq_dec (spec_GetKind (manager w) ctx address)
                        WATCHPOINT_DISABLED) as [Hd | Hd].
  2: { rewrite Add_duplicate in H by (assumption || lia).
       injection H as _ <- _. left. reflexivity. }
  destruct (Z_lt_dec size 32) as [H32 | H32].
  2: { rewrite Add_wide_shift in H by (assumption || lia). discriminate H. }
  rewrite Add_programs in H by (assumption || lia).
  cbv zeta in H.
  destruct (R_SUCCEEDED _) in H.
  - destruct (R_SUCCEEDED _) in H.
    + destruct (_ && _) in H; [| discriminate H].
      injection H as _ <- _. right. right. reflexivity.
    + injection H as _ <- _. right. right. reflexivity.
  - injection H as _ <- _. right. left. reflexivity.
Qed.

Lemma WCR_odd (id selectMask : Z) (kind : WatchpointKind) :
  Z.odd (WCR id selectMask kind) = true.
Proof.
  unfold WCR, u32. rewrite <- Z.bit0_odd.
  rewrite Z.mod_pow2_bits_low by lia.
  rewrite Z.lor_spec. apply orb_true_r.
Qed.

Lemma aligned_mod4 (address : Z) : aligned address mod 4 = 0.
Proof.
  unfold aligned. change 4 with (2 ^ 2).
  rewrite <- Z.land_ones by lia.
  rewrite <- Z.land_assoc.
  change (Z.land 0xFFFFFFFC (Z.ones 2)) with 0.
  apply Z.land_0_r.
Qed.

Lemma reserved_wrp (m : WatchpointManager) (address size : Z)
  (kind : WatchpointKind) : reserved_call (wrp_call m address size kind).
Proof.
  right. unfold wrp_call. cbn [hw_index hw_control hw_value]. split.
  - destruct (alloc_id_cases m) as [-> | ->]; [left | right]; reflexivity.
  - right. split; [apply WCR_odd | apply aligned_mod4].
Qed.

Lemma reserved_brp (m : WatchpointManager) (ctx : GDBContext) :
  reserved_call (brp_call m ctx).
Proof.
  left. unfold brp_call. cbn [hw_index hw_control hw_value]. split.
  - destruct (alloc_id_cases m) as [-> | ->]; [left | right]; reflexivity.
  - right. reflexivity.
Qed.

Lemma reserved_reset_calls : Forall reserved_call reset_calls.
Proof.
  unfold reset_calls.
  repeat (apply Forall_cons; [| try apply Forall_nil]);
    unfold reserved_call; cbn [hw_index hw_control hw_value]; tauto.
Qed.

Lemma step_reserved svc (sys : System) (c : Call) (sys' : System) :
  Forall reserved_call (hw_calls (world sys)) -> True ->
  step svc sys c = Some sys' ->
  Forall reserved_call (hw_calls (world sys')).
Proof.
  intros HP _ Hs.
  destruct (step_cases _ _ _ _ Hs)
    as [(_ & ->)
       | [(s & a & sz & k & ctx & r & w & ctx' & _ & _ & Ha & ->)
         | (s & a & k & ctx & r & w & ctx' & _ & _ & Hr & ->)]];
    cbn [world].
  - rewrite Reset_eq. cbn [hw_calls].
    apply Forall_app. split; [exact HP | apply reserved_reset_calls].
  - destruct (Add_trace _ _ _ _ _ _ _ _ _ Ha) as [-> | [-> | ->]].
    + exact HP.
    + apply Forall_app. split; [exact HP |].
      apply Forall_cons; [apply reserved_wrp | apply Forall_nil].
    + apply Forall_app. split; [exact HP |].
      apply Forall_cons; [apply reserved_wrp |].
      apply Forall_cons; [apply reserved_brp | apply Forall_nil].
  - destruct (Remove_return_cases _ _ _ _ _ _ _ _ Hr)
      as [(_ & -> & _) | (_ & Hid & -> & _)]; [exact HP |].
    cbn [set_manager add_calls hw_calls].
    apply Forall_app. split; [exact HP |].
    apply Forall_cons; [| apply Forall_cons; [| apply Forall_nil]];
      unfold reserved_call; cbn [hw_index hw_control hw_value];
      destruct Hid as [-> | ->]; cbn; tauto.
Qed.

(** X16. Whatever the sessions and the calls, and whatever the kernel
    answers, every kernel call made in a run from the Reset state is on one
    of the four reserved register pairs: breakpoint pairs 4 and 5, with
    the disabled encoding (0, 0) or the control word [BCR]; watchpoint
    pairs 0x100 and 0x101, with the disabled encoding or an enabled control
    word and a word-aligned compare value. *)
Theorem run_reserved_calls svc (handles : list Z) (calls : list Call)
  (sys : System) :
  run svc calls (boot svc handles) = Some sys ->
  Forall reserved_call (hw_calls (world sys)).
Proof.
  intros H.
  apply (run_invariant svc
           (fun s => Forall reserved_call (hw_calls (world s)))
           (fun _ => True) (step_reserved svc) calls (boot svc handles) sys).
  - apply Forall_forall. intros; exact I.
  - unfold boot. cbn [world]. rewrite Reset_eq. cbn [hw_calls power_on app].
    apply reserved_reset_calls.
  - exact H.
Qed.

Lemma run_reserved_calls_witness :
  Forall reserved_call
    (hw_calls example_world
     ++ [wrp_call (manager example_world) 0x1000 4 WATCHPOINT_WRITE;
         brp_call (manager example_world) example_session]).
Proof.
  apply (run_reserved_calls hw_ok [0x8001]
           [CallAdd 0 0x1000 4 WATCHPOINT_WRITE]
           (mkSystem
              (set_manager
                 (add_calls example_world
                    [wrp_call (manager example_world) 0x1000 4
                              WATCHPOINT_WRITE;
                     brp_call (manager example_world) example_session])
                 (committed example_world example_session 0x1000 4
                            WATCHPOINT_WRITE))
              [mkContext 0x8001 (mkArray2 0x1000 0) 1])).
  vm_compute. reflexivity.
Defined.

Lemma slot_valid_zero : slot_valid zero_watchpoint.
Proof. left. reflexivity. Qed.

Lemma aset_slots (P : Watchpoint -> Prop) (a : array2 Watchpoint) (id : Z)
  (v : Watchpoint) :
  P (elt0 a) -> P (elt1 a) -> P v ->
  P (elt0 (aset a id v)) /\ P (elt1 (aset a id v)).
Proof.
  intros H0 H1 Hv. unfold aset.
  destruct (id =? 0); cbn [elt0 elt1]; split; assumption.
Qed.

Lemma step_slots_valid svc (sys : System) (c : Call) (sys' : System) :
  slot_valid (elt0 (watchpoints (manager (world sys))))
  /\ slot_valid (elt1 (watchpoints (manager (world sys)))) ->
  call_u32 c ->
  step svc sys c = Some sys' ->
  slot_valid (elt0 (watchpoints (manager (world sys'))))
  /\ slot_valid (elt1 (watchpoints (manager (world sys')))).
Proof.
  intros [H0 H1] Hc Hs.
  destruct (step_cases _ _ _ _ Hs)
    as [(_ & ->)
       | [(s & a & sz & k & ctx & r & w & ctx' & -> & _ & Ha & ->)
         | (s & a & k & ctx & r & w & ctx' & _ & _ & Hr & ->)]];
    cbn [world].
  - rewrite Reset_manager. split; apply slot_valid_zero.
  - destruct Hc as [Hua Hus].
    destruct (Add_return_cases _ _ _ _ _ _ _ _ _ Ha)
      as [(_ & -> & _) | [(_ & _ & calls & _ & ->) | (-> & _ & _ & -> & _)]];
      try (split; assumption).
    destruct (Add_success_inv _ _ _ _ _ _ _ _ Ha)
      as (_ & Hn & Hfit & H32 & Hk & _).
    destruct (validated_size _ _ Hua Hus Hn Hfit H32) as [Hsz Hin].
    cbn [set_manager manager committed watchpoints].
    apply aset_slots; try assumption.
    right. cbn [wp_kind wp_size wp_address]. repeat split; assumption || lia.
  - destruct (Remove_return_cases _ _ _ _ _ _ _ _ Hr)
      as [(_ & -> & _) | (_ & _ & -> & _)]; [split; assumption |].
    cbn [set_manager manager released watchpoints].
    apply aset_slots; try assumption. apply slot_valid_zero.
Qed.

(** X17. In every state reached from the Reset state by calls whose
    addresses and sizes are [u32] values, each slot is either cleared (all
    fields zero) or holds a kind other than [WATCHPOINT_DISABLED], a size
    from 1 to 4 and a region that fits the aligned word of its address. *)
Theorem run_slots_valid svc (handles : list Z) (calls : list Call)
  (sys : System) :
  Forall call_u32 calls ->
  run svc calls (boot svc handles) = Some sys ->
  slot_valid (elt0 (watchpoints (manager (world sys))))
  /\ slot_valid (elt1 (watchpoints (manager (world sys)))).
Proof.
  intros Hc H.
  apply (run_invariant svc
           (fun s => slot_valid (elt0 (watchpoints (manager (world s))))
                     /\ slot_valid (elt1 (watchpoints (manager (world s)))))
           call_u32 (step_slots_valid svc) calls (boot svc handles) sys Hc);
    [| exact H].
  unfold boot. cbn [world]. rewrite Reset_manager.
  split; apply slot_valid_zero.
Qed.

Lemma run_slots_valid_witness :
  slot_valid (mkWatchpoint 0x1002 2 WATCHPOINT_WRITE 0x8001)
  /\ slot_valid zero_watchpoint.
Proof.
  apply (run_slots_valid hw_ok [0x8001]
           [CallAdd 0 0x1002 2 WATCHPOINT_WRITE]
           (mkSystem
              (set_manager
                 (add_calls example_world
                    [wrp_call (manager example_world) 0x1002 2
                              WATCHPOINT_WRITE;
                     brp_call (manager example_world) example_session])
                 (committed example_world example_session 0x1002 2
                            WATCHPOINT_WRITE))
              [mkContext 0x8001 (mkArray2 0x1002 0) 1])).
  - apply Forall_cons; [| apply Forall_nil].
    unfold call_u32, is_u32. vm_compute.
    repeat split; discriminate || reflexivity.
  - vm_compute. reflexivity.
Defined.

(** *** The count of occupied slots, away from address 0 and handle 0 *)

Lemma slot_clear_zero : slot_clear zero_watchpoint.
Proof. right. reflexivity. Qed.

Lemma forget_debug (ctx : GDBContext) (address : Z) :
  debug (forget_address ctx address) = debug ctx.
Proof.
  unfold forget_address.
  destruct (aget (ctx_watchpoints ctx) 0 =? address); [reflexivity |].
  destruct (aget (ctx_watchpoints ctx) 1 =? address); reflexivity.
Qed.

Lemma set_session_Forall (P : GDBContext -> Prop) (l : list GDBContext)
  (s : nat) (c : GDBContext) :
  Forall P l -> P c -> Forall P (set_session l s c).
Proof.
  intros Hl Hc. revert s.
  induction Hl as [| x l Hx Hl IH]; intros s; cbn [set_session].
  - destruct s; apply Forall_nil.
  - destruct s as [| s]; apply Forall_cons; auto.
Qed.

Lemma nth_error_Forall (P : GDBContext -> Prop) (l : list GDBContext)
  (s : nat) (c : GDBContext) :
  Forall P l -> nth_error l s = Some c -> P c.
Proof.
  intros Hl Hn. apply nth_error_In in Hn.
  rewrite Forall_forall in Hl. apply Hl. exact Hn.
Qed.

Lemma step_counted svc (sys : System) (c : Call) (sys' : System) :
  counted sys -> call_nonzero c -> step svc sys c = Some sys' -> counted sys'.
Proof.
  intros (Hc & H0 & H1 & Hd) Hnz Hs.
  destruct (step_cases _ _ _ _ Hs)
    as [(_ & ->)
       | [(s & a & sz & k & ctx & r & w & ctx' & _ & Hn & Ha & ->)
         | (s & a & k & ctx & r & w & ctx' & -> & Hn & Hr & ->)]];
    unfold counted; cbn [world sessions].
  - rewrite Reset_manager.
    split; [reflexivity |]. split; [apply slot_clear_zero |].
    split; [apply slot_clear_zero | exact Hd].
  - split; [apply (Add_consistent _ _ _ _ _ _ _ _ _ Hc Ha) |].
    pose proof (nth_error_Forall _ _ _ _ Hd Hn) as Hctx.
    destruct (Add_return_cases _ _ _ _ _ _ _ _ _ Ha)
      as [(_ & -> & ->) | [(_ & -> & calls & _ & ->) | (-> & _ & _ & -> & ->)]].
    + repeat split; try assumption. apply set_session_Forall; assumption.
    + repeat split; try assumption. apply set_session_Forall; assumption.
    + destruct (Add_success_inv _ _ _ _ _ _ _ _ Ha)
        as (_ & _ & _ & _ & Hk & _).
      cbn [set_manager manager committed watchpoints].
      rewrite <- and_assoc. split.
      * apply aset_slots; try assumption.
        left. unfold occupied. cbn [wp_kind].
        rewrite (kind_eqb_neq _ _ Hk). reflexivity.
      * apply set_session_Forall; assumption.
  - cbn [call_nonzero] in Hnz.
    pose proof (nth_error_Forall _ _ _ _ Hd Hn) as Hctx.
    split.
    + apply (Remove_consistent _ _ _ _ _ _ _ _ Hc Hr).
      intros ->.
      destruct (Remove_return_cases _ _ _ _ _ _ _ _ Hr)
        as [(E & _) | (_ & Hid & _)]; [discriminate E |].
      destruct (scan_occupied (manager (world sys)) ctx a H0 H1 Hnz Hctx)
        as [E | E]; [| exact E].
      rewrite E in Hid. destruct Hid; discriminate.
    + destruct (Remove_return_cases _ _ _ _ _ _ _ _ Hr)
        as [(_ & -> & ->) | (_ & _ & -> & ->)].
      * repeat split; try assumption. apply set_session_Forall; assumption.
      * cbn [set_manager manager released watchpoints].
        rewrite <- and_assoc. split.
        -- apply aset_slots; try assumption. apply slot_clear_zero.
        -- apply set_session_Forall; [assumption |].
           rewrite forget_debug. exact Hctx.
Qed.

(** X18. When no session has handle 0 and no removal asks for address 0,
    every state reached from the Reset state has [total] equal to the
    number of occupied slots, so [total] is 0, 1 or 2, and its free slots
    are cleared. *)
Theorem run_total_counts svc (handles : list Z) (calls : list Call)
  (sys : System) :
  Forall (fun h => h <> 0) handles ->
  Forall call_nonzero calls ->
  run svc calls (boot svc handles) = Some sys ->
  total (manager (world sys)) = nb_occupied (manager (world sys))
  /\ 0 <= total (manager (world sys)) <= 2
  /\ slot_clear (elt0 (watchpoints (manager (world sys))))
  /\ slot_clear (elt1 (watchpoints (manager (world sys)))).
Proof.
  intros Hh Hc H.
  assert (Hb : counted (boot svc handles)).
  { unfold counted, boot. cbn [world sessions]. rewrite Reset_manager.
    split; [reflexivity |]. split; [apply slot_clear_zero |].
    split; [apply slot_clear_zero |].
    apply Forall_map. cbn [new_context debug]. exact Hh. }
  destruct (run_invariant svc counted call_nonzero (step_counted svc)
              calls (boot svc handles) sys Hc Hb H)
    as (Hcons & H0 & H1 & _).
  unfold consistent in Hcons.
  pose proof (nb_occupied_range (manager (world sys))) as Hr.
  repeat split; try assumption; lia.
Qed.

Lemma run_total_counts_witness :
  total (mkManager 1
           (mkArray2 zero_watchpoint
                     (mkWatchpoint 0x2000 4 WATCHPOINT_WRITE 0x8002)))
  = nb_occupied
      (mkManager 1
         (mkArray2 zero_watchpoint
                   (mkWatchpoint 0x2000 4 WATCHPOINT_WRITE 0x8002)))
  /\ 0 <= total (mkManager 1
                   (mkArray2 zero_watchpoint
                             (mkWatchpoint 0x2000 4 WATCHPOINT_WRITE 0x8002)))
     <= 2
  /\ slot_clear zero_watchpoint
  /\ slot_clear (mkWatchpoint 0x2000 4 WATCHPOINT_WRITE 0x8002).
Proof.
  apply (run_total_counts hw_ok [0x8001; 0x8002]
           [CallAdd 0 0x1000 4 WATCHPOINT_READ;
            CallAdd 1 0x2000 4 WATCHPOINT_WRITE;
            CallRemove 0 0x1000 WATCHPOINT_DISABLED]
           (mkSystem
              (mkWorld
                 (mkManager 1
                    (mkArray2 zero_watchpoint
                       (mkWatchpoint 0x2000 4 WATCHPOINT_WRITE 0x8002)))
                 0 true
                 (reset_calls
                  ++ [mkHwCall 0x100 0x1401ED 0x1000;
                      mkHwCall 4 BCR 0x8001;
                      mkHwCall 0x101 0x1501F5 0x2000;
                      mkHwCall 5 BCR 0x8002;
                      mkHwCall 4 0 0;
                      mkHwCall 0x100 0 0]))
              [new_context 0x8001;
               mkContext 0x8002 (mkArray2 0x2000 0) 1])).
  - repeat (apply Forall_cons; [discriminate |]). apply Forall_nil.
  - repeat (apply Forall_cons; [cbn; try exact I; discriminate |]).
    apply Forall_nil.
  - vm_compute. reflexivity.
Defined.

(** *** The lock *)

Lemma Add_lockInitialized svc (w : World) (ctx : GDBContext)
  (address size : Z) (kind : WatchpointKind) (r : Z) (w' : World)
  (ctx' : GDBContext) :
  GDB_AddWatchpoint svc w ctx address size kind = Ret r w' ctx' ->
  lockInitialized w' = lockInitialized w.
Proof.
  intros H.
  destruct (Add_return_cases _ _ _ _ _ _ _ _ _ H)
    as [(_ & -> & _) | [(_ & _ & calls & _ & ->) | (_ & _ & _ & -> & _)]];
    reflexivity.
Qed.

Lemma run_lock_from svc (calls : list Call) (sys sys' : System) :
  lockInitialized (world sys) = true ->
  run svc calls sys = Some sys' ->
  lockInitialized (world sys') = true
  /\ watchpointManagerLock (world sys)
     <= watchpointManagerLock (world sys')
     <= watchpointManagerLock (world sys) + nb_adds calls.
Proof.
  revert sys.
  induction calls as [| c calls IH]; intros sys Hi Hrun.
  - cbn in Hrun. injection Hrun as <-. cbn [nb_adds]. split; [exact Hi | lia].
  - cbn [run] in Hrun.
    destruct (step svc sys c) as [sys1 |] eqn:Es; [| discriminate].
    destruct (step_cases _ _ _ _ Es)
      as [(-> & ->)
         | [(s & a & sz & k & ctx & r & w & ctx' & -> & _ & Ha & ->)
           | (s & a & k & ctx & r & w & ctx' & -> & _ & Hr & ->)]].
    + assert (Hi1 : lockInitialized (GDB_ResetWatchpoints svc (world sys))
                    = true) by (rewrite Reset_eq; reflexivity).
      destruct (IH (mkSystem (GDB_ResetWatchpoints svc (world sys))
                             (sessions sys)) Hi1 Hrun) as [Hi' Hb].
      cbn [world nb_adds] in *.
      rewrite (Reset_lock_balanced svc _ Hi) in Hb.
      split; [exact Hi' | exact Hb].
    + pose proof (Add_lockInitialized _ _ _ _ _ _ _ _ _ Ha) as Hi1.
      rewrite Hi in Hi1.
      destruct (IH (mkSystem w (set_session (sessions sys) s ctx')) Hi1 Hrun)
        as [Hi' Hb].
      cbn [world nb_adds] in *.
      split; [exact Hi' |].
      destruct (Add_lock_cases _ _ _ _ _ _ _ _ _ Ha) as [E | (_ & _ & E)];
        rewrite E in Hb; lia.
    + destruct (Remove_return_cases _ _ _ _ _ _ _ _ Hr)
        as [(_ & -> & _) | (_ & _ & -> & _)].
      * destruct (IH (mkSystem (world sys)
                         (set_session (sessions sys) s ctx')) Hi Hrun)
          as [Hi' Hb].
        cbn [world nb_adds] in *. split; assumption.
      * destruct (IH _ (Hi : lockInitialized
                          (world (mkSystem
                             (set_manager
                                (add_calls (world sys) _)
                                (released (world sys) _))
                             (set_session (sessions sys) s ctx'))) = true)
                     Hrun) as [Hi' Hb].
        cbn [world nb_adds set_manager add_calls watchpointManagerLock] in *.
        split; assumption.
Qed.

(** X19. In a run from the Reset state the acquisition count of the lock
    never goes below 0 and never exceeds the number of
    [GDB_AddWatchpoint] calls made: [GDB_ResetWatchpoints] and
    [GDB_RemoveWatchpoint] return with the count they found, and
    [GDB_AddWatchpoint] with that count or one more. In particular a run
    without additions leaves the lock free. *)
Theorem run_lock_bound svc (handles : list Z) (calls : list Call)
  (sys : System) :
  run svc calls (boot svc handles) = Some sys ->
  0 <= watchpointManagerLock (world sys) <= nb_adds calls.
Proof.
  intros H.
  destruct (run_lock_from svc calls (boot svc handles) sys eq_refl H)
    as [_ Hb].
  replace (watchpointManagerLock (world (boot svc handles))) with 0 in Hb
    by reflexivity.
  lia.
Qed.

Lemma run_lock_bound_witness :
  0 <= watchpointManagerLock (RecursiveLock_Lock example_world)
    <= nb_adds [CallAdd 0 0x1000 0 WATCHPOINT_WRITE].
Proof.
  apply (run_lock_bound hw_ok [0x8001]
           [CallAdd 0 0x1000 0 WATCHPOINT_WRITE]
           (mkSystem (RecursiveLock_Lock example_world) [example_session])).
  vm_compute. reflexivity.
Defined.

(** ** When an addition succeeds *)

Lemma Add_accepts svc (w : World) (ctx : GDBContext) (address size : Z)
  (kind : WatchpointKind) :
  (forall l c, 0 <= svc l c) ->
  is_u32 address ->
  total (manager w) <> 2 ->
  1 <= size -> address mod 4 + size <= 4 ->
  kind <> WATCHPOINT_DISABLED ->
  spec_GetKind (manager w) ctx address = WATCHPOINT_DISABLED ->
  0 <= nbWatchpoints ctx < 2 ->
  GDB_AddWatchpoint svc w ctx address size kind
  = Ret 0
        (set_manager
           (add_calls w [wrp_call (manager w) address size kind;
                         brp_call (manager w) ctx])
           (committed w ctx address size kind))
        (mkContext (debug ctx)
           (aset (ctx_watchpoints ctx) (nbWatchpoints ctx) address)
           (nbWatchpoints ctx + 1)).
Proof.
  intros Hsvc Ha Ht Hs Hfit Hk Hd Hnb.
  pose proof (Z.mod_pos_bound address 4 eq_refl) as Hoff.
  rewrite Add_programs; try assumption; try lia.
  - cbv zeta. unfold R_SUCCEEDED.
    rewrite !(proj2 (Z.leb_le _ _) (Hsvc _ _)).
    replace ((0 <=? nbWatchpoints ctx) && (nbWatchpoints ctx <? 2))
      with true
      by (symmetry; apply andb_true_iff; split;
          [apply Z.leb_le | apply Z.ltb_lt]; lia).
    rewrite (u32_small (nbWatchpoints ctx + 1))
      by (unfold is_u32; change (2 ^ 32) with 4294967296; lia).
    reflexivity.
  - rewrite (offset_mod4 _ Ha). rewrite u32_small; [lia |].
    unfold is_u32. change (2 ^ 32) with 4294967296. lia.
Qed.

(** X20. On a kernel that accepts every call, for [u32] arguments and a
    session with room in its cache, [GDB_AddWatchpoint] returns 0 exactly
    when [total] is not 2, the size is from 1 to 4, the region fits the
    aligned word, the kind is not [WATCHPOINT_DISABLED] and the lookup of
    the session and address answers [WATCHPOINT_DISABLED]. *)
Theorem Add_succeeds_iff svc (w : World) (ctx : GDBContext)
  (address size : Z) (kind : WatchpointKind) :
  (forall l c, 0 <= svc l c) ->
  is_u32 address -> is_u32 size ->
  0 <= nbWatchpoints ctx < 2 ->
  (exists w' ctx',
     GDB_AddWatchpoint svc w ctx address size kind = Ret 0 w' ctx')
  <-> (total (manager w) <> 2
       /\ 1 <= size <= 4 /\ address mod 4 + size <= 4
       /\ kind <> WATCHPOINT_DISABLED
       /\ fst (fst (GDB_GetWatchpointKind w ctx address))
          = WATCHPOINT_DISABLED).
Proof.
  intros Hsvc Ha Hs Hnb.
  rewrite GetWatchpointKind_eq. cbn [fst].
  split.
  - intros (w' & ctx' & H).
    destruct (Add_success_inv _ _ _ _ _ _ _ _ H)
      as (Ht & Hn & Hfit & H32 & Hk & Hd).
    destruct (validated_size _ _ Ha Hs Hn Hfit H32) as [Hsz Hin].
    repeat split; assumption || lia.
  - intros (Ht & Hsz & Hin & Hk & Hd).
    do 2 eexists. apply Add_accepts; assumption || lia.
Qed.

Lemma Add_succeeds_iff_witness :
  (exists w' ctx',
     GDB_AddWatchpoint hw_ok example_world example_session
                       0x1000 4 WATCHPOINT_WRITE = Ret 0 w' ctx')
  <-> (total (manager example_world) <> 2
       /\ 1 <= 4 <= 4 /\ 0x1000 mod 4 + 4 <= 4
       /\ WATCHPOINT_WRITE <> WATCHPOINT_DISABLED
       /\ fst (fst (GDB_GetWatchpointKind example_world example_session
                                          0x1000))
          = WATCHPOINT_DISABLED).
Proof.
  apply (Add_succeeds_iff hw_ok example_world example_session 0x1000 4
           WATCHPOINT_WRITE).
  - intros l c. vm_compute. discriminate.
  - unfold is_u32. vm_compute. split; [discriminate | reflexivity].
  - unfold is_u32. vm_compute. split; [discriminate | reflexivity].
  - vm_compute. split; [discriminate | reflexivity].
Defined.

(** X21. On a kernel that accepts every call, after a reset two sessions
    with different handles can each add one watchpoint, at different
    addresses: the first takes slot 0, the second slot 1, [total] becomes
    2, and from then on every addition, whatever its session and
    arguments, returns [-EBUSY]. *)
Theorem two_sessions_fill svc (w : World) (c1 c2 : GDBContext)
  (a1 s1 a2 s2 : Z) (k1 k2 : WatchpointKind) :
  (forall l c, 0 <= svc l c) ->
  is_u32 a1 -> 1 <= s1 -> a1 mod 4 + s1 <= 4 -> k1 <> WATCHPOINT_DISABLED ->
  is_u32 a2 -> 1 <= s2 -> a2 mod 4 + s2 <= 4 -> k2 <> WATCHPOINT_DISABLED ->
  0 <= nbWatchpoints c1 < 2 -> 0 <= nbWatchpoints c2 < 2 ->
  a1 <> a2 -> debug c1 <> debug c2 ->
  exists w1 c1' w2 c2',
    GDB_AddWatchpoint svc (GDB_ResetWatchpoints svc w) c1 a1 s1 k1
    = Ret 0 w1 c1'
    /\ GDB_AddWatchpoint svc w1 c2 a2 s2 k2 = Ret 0 w2 c2'
    /\ manager w2
       = mkManager 2 (mkArray2 (mkWatchpoint a1 s1 k1 (debug c1))
                               (mkWatchpoint a2 s2 k2 (debug c2)))
    /\ forall c a s k,
         GDB_AddWatchpoint svc w2 c a s k
         = Ret (- EBUSY) (RecursiveLock_Lock w2) c.
Proof.
  intros Hsvc Ha1 Hs1 Hf1 Hk1 Ha2 Hs2 Hf2 Hk2 Hn1 Hn2 Hne Hd.
  assert (E1 : GDB_AddWatchpoint svc (GDB_ResetWatchpoints svc w) c1 a1 s1 k1
               = Ret 0
                   (set_manager
                      (add_calls (GDB_ResetWatchpoints svc w)
                         [wrp_call zero_manager a1 s1 k1;
                          brp_call zero_manager c1])
                      (mkManager 1
                         (mkArray2 (mkWatchpoint a1 s1 k1 (debug c1))
                                   zero_watchpoint)))
                   (mkContext (debug c1)
                      (aset (ctx_watchpoints c1) (nbWatchpoints c1) a1)
                      (nbWatchpoints c1 + 1))).
  { rewrite Add_accepts; try assumption.
    - reflexivity.
    - rewrite Reset_manager. cbn. discriminate.
    - rewrite Reset_manager. apply spec_GetKind_zero. }
  eexists _, _, _, _.
  split; [exact E1 |].
  split; [| split].
  - apply Add_accepts; try assumption.
    + cbn. discriminate.
    + cbn [set_manager manager].
      unfold spec_GetKind. cbn [watchpoints elt0 elt1].
      rewrite (spec_matches_false c2 a2 (mkWatchpoint a1 s1 k1 (debug c1)))
        by (cbn; assumption).
      destruct (spec_matches c2 a2 zero_watchpoint); reflexivity.
  - cbn [set_manager manager]. unfold committed, alloc_id.
    cbn [set_manager add_calls manager watchpoints total aget Z.eqb elt0
         wp_kind].
    rewrite (kind_eqb_neq _ _ Hk1). reflexivity.
  - intros c a s k. apply Add_full. reflexivity.
Qed.

Lemma two_sessions_fill_witness :
  exists w1 c1' w2 c2',
    GDB_AddWatchpoint hw_ok (GDB_ResetWatchpoints hw_ok power_on)
                      (new_context 0x8001) 0x1000 4 WATCHPOINT_READ_WRITE
    = Ret 0 w1 c1'
    /\ GDB_AddWatchpoint hw_ok w1 (new_context 0x8002) 0x2002 2
                         WATCHPOINT_WRITE
       = Ret 0 w2 c2'
    /\ manager w2
       = mkManager 2
           (mkArray2 (mkWatchpoint 0x1000 4 WATCHPOINT_READ_WRITE
                                   (debug (new_context 0x8001)))
                     (mkWatchpoint 0x2002 2 WATCHPOINT_WRITE
                                   (debug (new_context 0x8002))))
    /\ forall c a s k,
         GDB_AddWatchpoint hw_ok w2 c a s k
         = Ret (- EBUSY) (RecursiveLock_Lock w2) c.
Proof.
  apply (two_sessions_fill hw_ok power_on (new_context 0x8001)
           (new_context 0x8002) 0x1000 4 0x2002 2
           WATCHPOINT_READ_WRITE WATCHPOINT_WRITE).
  - intros l c. vm_compute. discriminate.
  - unfold is_u32. vm_compute. split; [discriminate | reflexivity].
  - lia.
  - vm_compute. discriminate.
  - discriminate.
  - unfold is_u32. vm_compute. split; [discriminate | reflexivity].
  - lia.
  - vm_compute. discriminate.
  - discriminate.
  - vm_compute. split; [discriminate | reflexivity].
  - vm_compute. split; [discriminate | reflexivity].
  - discriminate.
  - vm_compute. discriminate.
Defined.
